(** * Temporal generalization analyses: subscoring and single-trial regression

    A shallow embedding of the analysis code of [scripts/run_decoding.py]
    and [scripts/run_plot_subscore_gat.py], and the properties of its
    natural-language specification that are stated about it.

    Numbers are IEEE-754 doubles, as in numpy: Rocq's primitive [float],
    with its NaN.  Index arrays are [list nat].  The trial metadata (a
    pandas DataFrame) is a list of rows.  Python exceptions are values of
    an error monad.  The functions the scripts import from outside the
    repository ([jr.gat.subscore], [jr.stats.repeated_spearman], the
    [mne] estimator) are fields of an interface, so that every statement
    holds for any implementation of them. *)

From Stdlib Require Import ZArith Floats.
From stdpp Require Import base option list gmap strings sorting.

Set Default Proof Using "Type".

(* ================================================================== *)
(** * Exceptions *)

Inductive exn : Set :=
  ValueError | KeyError | IndexError | TypeError | AttributeError.

Inductive result (A : Type) : Type :=
| Ok (a : A)
| Raise (e : exn).
Arguments Ok {A} a.
Arguments Raise {A} e.

#[global] Instance result_ret : MRet result := @Ok.
#[global] Instance result_bind : MBind result := λ A B f m,
  match m with Ok a => f a | Raise e => Raise e end.

(** A Python [for] loop whose body may raise: the accumulator is threaded
    through the iterations, the first exception leaves the loop. *)
Fixpoint for_loop {A S : Type} (body : A → S → result S) (l : list A) (s : S)
  : result S :=
  match l with
  | [] => Ok s
  | x :: l' => s' ← body x s; for_loop body l' s'
  end.

(** A list comprehension [[x for x in l if p(x)]] whose test may raise. *)
Fixpoint comprehension {A : Type} (p : A → result bool) (l : list A)
  : result (list A) :=
  match l with
  | [] => Ok []
  | x :: l' =>
      p x ≫= λ b : bool,
        r ← comprehension p l'; Ok (if b then x :: r else r)
  end.

Definition from_option {A : Type} (e : exn) (o : option A) : result A :=
  match o with Some a => Ok a | None => Raise e end.

(** [enumerate(values)] *)
Definition enumerate {A : Type} (l : list A) : list (nat * A) :=
  zip (seq 0 (length l)) l.

(* ================================================================== *)
(** * numpy primitives on doubles *)

Module np.

Definition pi : float := 0x1.921fb54442d18p+1%float.
Definition nan : float := PrimFloat.nan.

Definition isnan (x : float) : bool := PrimFloat.is_nan x.

(** C's [fmod]: the remainder of the truncated division, exact, with
    the sign of the dividend.  Computed on the mantissas. *)
Definition fmod (x y : float) : float :=
  match Prim2SF x, Prim2SF y with
  | S754_nan, _ | _, S754_nan => PrimFloat.nan
  | S754_infinity _, _ => PrimFloat.nan
  | _, S754_zero _ => PrimFloat.nan
  | S754_zero _, _ => x
  | S754_finite _ _ _, S754_infinity _ => x
  | S754_finite sx mx ex, S754_finite _ my ey =>
      let e := Z.min ex ey in
      let r := ((Z.pos mx * 2 ^ (ex - e)) mod (Z.pos my * 2 ^ (ey - e)))%Z in
      if (r =? 0)%Z then (if sx then neg_zero else zero)
      else SF2Prim (binary_normalize prec emax (cond_Zopp sx r) e false)
  end.

(** [x % y] on doubles ([np.remainder]): [fmod], moved to the sign of
    the divisor. *)
Definition remainder (x y : float) : float :=
  let m := fmod x y in
  if PrimFloat.is_nan m then m
  else if PrimFloat.is_zero m then (if PrimFloat.get_sign y then neg_zero else zero)
  else if negb (Bool.eqb (PrimFloat.ltb y 0) (PrimFloat.ltb m 0))
       then PrimFloat.add m y else m.

(** A Python [int] or [len(...)] used as a double. *)
Definition of_nat (n : nat) : float :=
  PrimFloat.of_uint63 (Uint63Axioms.of_Z (Z.of_nat n)).

(** A Python [bool] used as a number. *)
Definition of_bool (b : bool) : float := if b then 1%float else 0%float.

(** [np.array(x, dtype=np.float32)]: rounding to single precision. *)
Definition float32 (x : float) : float :=
  match Prim2SF x with
  | S754_finite s m e => SF2Prim (binary_round 24 128 s m e)
  | _ => x
  end.

(** [np.where(mask)[0]]: the positions of the true entries, increasing. *)
Definition where_ (mask : list bool) : list nat :=
  filter (λ i, mask !! i = Some true) (seq 0 (length mask)).

(** [np.r_[a, b]]: concatenation. *)
Definition r_ (a b : list nat) : list nat := a ++ b.

(** [np.intersect1d(a, b)]: the sorted, unique values that are in both. *)
Definition intersect1d (a b : list nat) : list nat :=
  filter (λ i, i ∈ a ∧ i ∈ b) (seq 0 (S (max_list a))).

(** [xs[sel]] for an integer array [sel]: numpy raises [IndexError] on a
    position out of range. *)
Fixpoint take {A : Type} (sel : list nat) (xs : list A) : result (list A) :=
  match sel with
  | [] => Ok []
  | i :: sel' =>
      match xs !! i with
      | Some x => r ← take sel' xs; Ok (x :: r)
      | None => Raise IndexError
      end
  end.

(** [np.unique] on doubles: sort (NaN last), then keep each entry that
    differs ([!=]) from its predecessor; every NaN is kept, since NaN
    differs from itself. *)
Definition sort_le (x y : float) : bool :=
  PrimFloat.is_nan y || PrimFloat.leb x y.

Fixpoint insert_sorted (x : float) (l : list float) : list float :=
  match l with
  | [] => [x]
  | y :: l' => if sort_le x y then x :: l else y :: insert_sorted x l'
  end.

Definition sort (l : list float) : list float := foldr insert_sorted [] l.

Fixpoint keep_changes (prev : float) (l : list float) : list float :=
  match l with
  | [] => []
  | y :: l' =>
      if PrimFloat.eqb prev y then keep_changes y l' else y :: keep_changes y l'
  end.

Definition unique (l : list float) : list float :=
  match sort l with
  | [] => []
  | x :: l' => x :: keep_changes x l'
  end.

(** [np.nan * np.zeros((n_rows, n_cols))] *)
Definition nan_zeros (n_rows n_cols : nat) : list (list float) :=
  replicate n_rows (replicate n_cols (PrimFloat.mul PrimFloat.nan 0)).

(** [np.nanmean(xs)] of a vector: NaN entries count as zero in the sum
    and are left out of the count; with no entry left it is 0/0. *)
Definition nanmean (xs : list float) : float :=
  let ys := (λ x, if PrimFloat.is_nan x then 0%float else x) <$> xs in
  let cnt := length (filter (λ x, PrimFloat.is_nan x = false) xs) in
  PrimFloat.div (foldl PrimFloat.add (default 0%float (head ys)) (tail ys))
                (of_nat cnt).

(** [np.nanmean(R, axis=0)] for [R] of shape (n_rows, n_cols). *)
Definition nanmean_axis0 (n_cols : nat) (R : list (list float)) : list float :=
  (λ t, nanmean (omap (λ row, row !! t) R)) <$> seq 0 n_cols.

End np.

(* ================================================================== *)
(** * Data model *)

Abbreviation matrix := (list (list float)).

(** A prediction tensor, indexed (train time, test time, trial, output). *)
Abbreviation tensor := (list (list (list (list float)))).

(** One row of the trial metadata ([events]), with the columns the
    analyses below read. *)
Record trial : Set := Trial {
  detect_button : float;     (* reported visibility, 0..3 *)
  target_contrast : float;   (* 0.5, 0.75, 1 *)
  target_present : bool;
  target_circAngle : float   (* NaN when no target was shown *)
}.

Abbreviation DataFrame := (list trial).

(** [events[name]]; a name that is no column raises [KeyError]. *)
Definition column (events : DataFrame) (name : string) : result (list float) :=
  if String.eqb name "detect_button" then Ok (detect_button <$> events)
  else if String.eqb name "target_contrast" then Ok (target_contrast <$> events)
  else if String.eqb name "target_present"
       then Ok ((λ t, np.of_bool (target_present t)) <$> events)
  else if String.eqb name "target_circAngle" then Ok (target_circAngle <$> events)
  else Raise KeyError.

(** [events.iloc[events_sel].reset_index()] *)
Definition iloc (events : DataFrame) (events_sel : list nat) : result DataFrame :=
  np.take events_sel events.

(** An entry of [conditions.analyses]. *)
Record Analysis : Type := {
  name : string;
  condition : string;
  query : option (trial → bool);
  scorer : list float → matrix → result (list float);
  chance : float
}.

(** A [y_pred] argument: of shape (n_trials,) or (n_trials, n_times). *)
Inductive ndarray : Type :=
| Arr1 (v : list float)
| Arr2 (n_times : nat) (rows : matrix).

Definition len (y : ndarray) : nat :=
  match y with Arr1 v => length v | Arr2 _ rows => length rows end.

(** [if y_pred.ndim == 1: y_pred = y_pred[:, np.newaxis]], then
    [y_pred.shape[1]] and the rows. *)
Definition as_2d (y : ndarray) : nat * matrix :=
  match y with
  | Arr1 v => (1, (λ x, [x]) <$> v)
  | Arr2 n_times rows => (n_times, rows)
  end.

(** The fitted [GeneralizationAcrossTime] object, as the scripts use it. *)
Record GAT (Estimators : Type) : Type := {
  estimators_ : option Estimators;
  y_pred_ : option tensor;
  score_mode : string;
  train_times_ : list float
}.
Arguments estimators_ {Estimators} g.
Arguments y_pred_ {Estimators} g.
Arguments score_mode {Estimators} g.
Arguments train_times_ {Estimators} g.

(** [y_pred_.shape[:2]] *)
Definition shape2 (y : tensor) : nat * nat :=
  (length y, length (default [] (head y))).

(** What the scripts import from outside the repository. *)
Class Extern : Type := {
  Epochs : Type;
  Estimators : Type;
  (** [epochs[sel]], [epochs.times] *)
  epochs_getitem : Epochs → list nat → Epochs;
  epochs_times : Epochs → list float;
  (** [GeneralizationAcrossTime(clf, cv, scorer, n_jobs).fit(epochs, y)] *)
  gat_fit : Analysis → Epochs → list float → result (GAT Estimators);
  (** [gat.score(epochs, y)]: the scored object and the score matrix *)
  gat_score : GAT Estimators → Epochs → list float →
              result (GAT Estimators * matrix);
  (** [jr.gat.subscore(gat, sel)] *)
  subscore : GAT Estimators → list nat → result matrix;
  (** [jr.stats.repeated_spearman(X, y)] *)
  repeated_spearman : matrix → list float → result (list float);
  (** the content of the memory that [np.empty] hands out *)
  uninitialised : nat → nat → float
}.

(** [np.empty((n_rows, n_cols))]: the shape is right, the content is not
    set. *)
Definition np_empty `{Extern} (n_rows n_cols : nat) : matrix :=
  (λ i, (λ j, uninitialised i j) <$> seq 0 n_cols) <$> seq 0 n_rows.

(* ================================================================== *)
(** * [run_plot_subscore_gat.py] *)

(** The [factors] dictionary of [_subscore] and [_subregress]:
    a column name and the levels of the factor. *)
Definition factors (factor : string) : result (string * list float) :=
  if String.eqb factor "visibility"
  then Ok ("detect_button"%string, [0; 1; 2; 3]%float)
  else if String.eqb factor "contrast"
  then Ok ("target_contrast"%string, [0.5; 0.75; 1]%float)
  else Raise KeyError.

(** [np.where(events['target_present'] == False)[0]] *)
Definition absent_trials (events : DataFrame) : list nat :=
  np.where_ ((λ t, Bool.eqb (target_present t) false) <$> events).

(** ** [_subscore_pipeline] *)

(** The selection of the body of [for vis in range(4)]: [None] when the
    level has fewer than 5 trials of its own, else the trials that are
    passed to [subscore]. *)
Definition _subscore_pipeline_sel (analysis : Analysis) (events : DataFrame)
    (vis : nat) : option (list nat) :=
  let sel := np.where_ ((λ t, PrimFloat.eqb (detect_button t) (np.of_nat vis))
                          <$> events) in
  if (length sel <? 5)%nat then None
  else if String.eqb (name analysis) "target_present"
  then Some (np.r_ sel (absent_trials events))
  else Some sel.

(** The body of [for vis in range(4)]. *)
Definition _subscore_pipeline_level `{Extern} (analysis : Analysis)
    (gat : GAT Estimators) (events : DataFrame) (vis : nat) : result matrix :=
  match _subscore_pipeline_sel analysis events vis with
  | None =>
      match y_pred_ gat with
      | Some y =>
          let '(n_train, n_test) := shape2 y in
          Ok ((λ row : list float, (λ x, PrimFloat.mul np.nan x) <$> row)
                <$> np_empty n_train n_test)
      | None => Raise AttributeError
      end
  | Some sel => subscore gat sel
  end.

(** The body of [for subject in subjects], from the loaded
    [gat, _, events_sel, events] to [scores]. *)
Definition _subscore_pipeline_subject `{Extern} (analysis : Analysis)
    (gat : GAT Estimators) (events_sel : list nat) (events : DataFrame)
  : result (list matrix) :=
  events ← iloc events events_sel;
  let gat := {| estimators_ := estimators_ gat; y_pred_ := y_pred_ gat;
                score_mode := "mean-sample-wise";
                train_times_ := train_times_ gat |} in
  for_loop (λ vis scores,
              score ← _subscore_pipeline_level analysis gat events vis;
              Ok (scores ++ [score]))
           (seq 0 4) [].

(** ** [_subscore] *)

(** The trials of one level: [sel] as it stands when the minimum count is
    tested. *)
Definition _subscore_sel (analysis : Analysis) (events : DataFrame)
    (keycol : list float) (value : float) : list nat :=
  let sel := np.where_ ((λ x, PrimFloat.eqb x value) <$> keycol) in
  if String.eqb (name analysis) "target_present"
  then np.r_ sel (absent_trials events)
  else sel.

(** [scores[:, ii] = v]: [v] is broadcast over the rows of [scores]. *)
Definition assign_column (ii : nat) (v : list float) (scores : matrix)
  : result matrix :=
  let set_col (v : list float) :=
    zip_with (λ (row : list float) x, <[ii := x]> row) scores v in
  if decide (length v = length scores) then Ok (set_col v)
  else match v with
       | [x] => Ok (set_col (replicate (length scores) x))
       | _ => Raise ValueError
       end.

(** The body of [for ii, value in enumerate(values)]. *)
Definition _subscore_level (analysis : Analysis) (events : DataFrame)
    (key : string) (y_true : list float) (y_pred : matrix)
    (iv : nat * float) (scores : matrix) : result matrix :=
  let '(ii, value) := iv in
  keycol ← column events key;
  let sel := _subscore_sel analysis events keycol value in
  if (length sel <? 5)%nat then Ok scores
  else
    labels ← np.take sel y_true;
    if (length (np.unique labels) <? 2)%nat then Ok scores
    else
      labels ← np.take sel y_true;
      preds ← np.take sel y_pred;
      score ← scorer analysis labels preds;
      assign_column ii score scores.

Definition _subscore (y_pred : ndarray) (events : DataFrame)
    (analysis : Analysis) (factor : string) : result matrix :=
  '(key, values) ← factors factor;
  y_true ← column events (name analysis);
  let '(n_times, y_pred) := as_2d y_pred in
  let scores := np.nan_zeros n_times (length values) in
  for_loop (_subscore_level analysis events key y_true y_pred)
           (enumerate values) scores.

(** ** [_subregress] *)

(** ['sub' in s] on strings *)
Fixpoint contains (sub s : string) : bool :=
  String.prefix sub s ||
  match s with
  | EmptyString => false
  | String _ s' => contains sub s'
  end.

(** "Compute single trial error": [y_pred] has shape (n_trials, n_times),
    [y_true[:, np.newaxis]] is broadcast over the time points. *)
Definition single_trial_error (analysis : Analysis) (y_pred : matrix)
    (y_true : list float) : matrix :=
  if contains "circAngle" (name analysis) then
    let y_error :=
      zip_with (λ (row : list float) y,
                  (λ p, np.remainder (p - y) (2 * np.pi))%float <$> row)
               y_pred y_true in
    (λ row : list float, (λ e, PrimFloat.abs (np.pi - e))%float <$> row)
      <$> y_error
  else
    zip_with (λ (row : list float) y, (λ p, PrimFloat.abs (p - y))%float <$> row)
             y_pred y_true.

(** [R[ii] = r]: [r] is broadcast over the [n_times] entries of the row. *)
Definition assign_row (n_times ii : nat) (r : list float) (R : matrix)
  : result matrix :=
  if decide (length r = n_times) then Ok (<[ii := r]> R)
  else match r with
       | [x] => Ok (<[ii := replicate n_times x]> R)
       | _ => Raise ValueError
       end.

(** "Do the prediction vary across visibilities/contrasts?": the present
    trials whose factor is at least the first level. *)
Definition _subregress_sel (events : DataFrame) (keycol : list float)
    (v0 : float) : list nat :=
  np.intersect1d
    (np.where_ ((λ t, Bool.eqb (target_present t) true) <$> events))
    (np.where_ ((λ x, PrimFloat.leb v0 x) <$> keycol)).

(** The body of [for ii, cov_value in enumerate(cov_values)]. *)
Definition _subregress_level `{Extern} (events : DataFrame) (key : string)
    (cov_factor : string) (n_times : nat) (y_error : matrix) (sel : list nat)
    (iv : nat * float) (R : matrix) : result matrix :=
  let '(ii, cov_value) := iv in
  covcol ← column events cov_factor;
  let cov_sel :=
    np.intersect1d (np.where_ ((λ x, PrimFloat.eqb x cov_value) <$> covcol))
                   sel in
  if (length cov_sel <=? 5)%nat then Ok R
  else
    errors ← np.take cov_sel y_error;
    keycol ← column events key;
    xs ← np.take cov_sel keycol;
    r ← repeated_spearman errors xs;
    assign_row n_times ii r R.

Definition _subregress `{Extern} (y_pred : ndarray) (events : DataFrame)
    (analysis : Analysis) (factor : string) (independent : bool)
  : result (list float) :=
  '(key, values) ← factors factor;
  y_true ← column events (name analysis);
  (* Check dimensiality *)
  if decide (len y_pred ≠ length y_true) then Raise ValueError
  else
    let '(n_times, y_pred) := as_2d y_pred in
    let y_error := single_trial_error analysis y_pred y_true in
    keycol ← column events key;
    v0 ← from_option IndexError (values !! 0);
    let sel := _subregress_sel events keycol v0 in
    if independent then
      let cov_factor :=
        if String.eqb factor "visibility" then "target_contrast"%string
        else "detect_button"%string in
      '(cov_key, cov_values) ← factors factor;
      let R := np.nan_zeros (length cov_values) n_times in
      R ← for_loop (_subregress_level events key cov_factor n_times y_error sel)
                   (enumerate cov_values) R;
      Ok (np.nanmean_axis0 n_times R)
    else
      errors ← np.take sel y_error;
      xs ← np.take sel keycol;
      repeated_spearman errors xs.

(** ** [_correlate] *)

(** [xs.reshape(n_rows, n_cols)] of a vector *)
Fixpoint chunks {A : Type} (n_rows n_cols : nat) (xs : list A) : list (list A) :=
  match n_rows with
  | 0 => []
  | S k => firstn n_cols xs :: chunks k n_cols (skipn n_cols xs)
  end.

Definition reshape2 (n_rows n_cols : nat) (xs : list float) : result matrix :=
  if decide (length xs = n_rows * n_cols) then Ok (chunks n_rows n_cols xs)
  else Raise ValueError.

(** [y.transpose(2, 0, 1, 3)[..., 0].reshape(n_trials, -1)]: for each
    trial, its first output over all (train, test) cells, row-major. *)
Definition trial_rows (n_trials : nat) (y : tensor) : result matrix :=
  if decide (n_trials = 0) then Raise ValueError
  else
    mapM (λ k,
            cells ← mapM (λ train : list (list (list float)),
                            mapM (λ test : list (list float),
                                    out ← from_option IndexError (test !! k);
                                    from_option IndexError (out !! 0))
                                 train)
                         y;
            Ok (List.concat cells))
         (seq 0 n_trials).

(** The body of [for subject in subjects], from the loaded
    [gat, _, events_sel, events] to [R]. *)
Definition _correlate_subject `{Extern} (gat : GAT Estimators)
    (events_sel : list nat) (events : DataFrame) : result matrix :=
  events ← iloc events events_sel;
  let y_vis := detect_button <$> events in
  (* only analyse present trials *)
  let sel := np.where_ (target_present <$> events) in
  y_vis ← np.take sel y_vis;
  y ← from_option TypeError (y_pred_ gat);
  y ← mapM (mapM (np.take sel)) y;
  (* make 2D y_pred *)
  y_pred ← trial_rows (length sel) y;
  (* regress *)
  R ← repeated_spearman y_pred y_vis;
  (* reshape and store *)
  let '(n_train, n_test) := shape2 y in
  reshape2 n_train n_test R.

(* ================================================================== *)
(** * [run_decoding.py] *)

(** What [save] writes: the ['decod'] and the ['score'] files. *)
Inductive artifact `{Extern} : Type :=
| Decod (gat : GAT Estimators) (analysis : Analysis) (sel : list nat)
        (events : DataFrame)
| Score (score : matrix) (times : list float).

(** What a run does besides returning: it prints, fits, scores, saves. *)
Inductive effect : Type :=
| Printed (words : list string)
| PrintedSelection (analysis : string) (labels : list float) (n : nat)
| Fit (sel : list nat)
| Scoring (sel : list nat)
| Save (kind subject analysis : string).

(** The files, keyed by (kind, subject, analysis), and the effects so far. *)
Record world `{Extern} : Type := {
  files : gmap (string * string * string) artifact;
  log : list effect
}.

(** Computations that change the world and may raise. *)
Definition io `{Extern} (A : Type) : Type := world → result A * world.

#[global] Instance io_ret `{Extern} : MRet io := λ A a w, (Ok a, w).
#[global] Instance io_bind `{Extern} : MBind io := λ A B f m w,
  match m w with
  | (Ok a, w') => f a w'
  | (Raise e, w') => (Raise e, w')
  end.

Definition lift `{Extern} {A : Type} (r : result A) : io A := λ w, (r, w).

Definition emit `{Extern} (e : effect) : io () :=
  λ w, (Ok (), {| files := files w; log := log w ++ [e] |}).

(** [save(obj, kind, subject=..., analysis=..., overwrite=True)] *)
Definition save `{Extern} (obj : artifact) (kind subject analysis : string)
  : io () :=
  λ w, (Ok (), {| files := <[(kind, subject, analysis) := obj]> (files w);
                  log := log w ++ [Save kind subject analysis] |}).

(** [s[ii]] for [s = column[labels]]: the entry that carries the label
    [ii]. *)
Fixpoint loc (labels : list nat) (values : list float) (ii : nat)
  : result float :=
  match labels, values with
  | l :: labels', v :: values' =>
      if decide (l = ii) then Ok v else loc labels' values' ii
  | _, _ => Raise KeyError
  end.

(** "subselect the trials": the rows that the query keeps and whose label
    is a number. *)
Definition trial_selection (events : DataFrame) (analysis : Analysis)
  : result (list nat) :=
  let sel :=
    match query analysis with
    | None => seq 0 (length events)
    | Some q => np.where_ (q <$> events)
    end in
  comprehension
    (λ ii, col ← column events (condition analysis);
           sub ← np.take sel col;
           v ← loc sel sub ii;
           Ok (negb (np.isnan v)))
    sel.

Definition _run `{Extern} (subject : string) (epochs : Epochs)
    (events : DataFrame) (analysis : Analysis) : io () :=
  emit (Printed [subject; name analysis]);;
  sel ← lift (trial_selection events analysis);
  (* The to-be-predicted value, for each trial *)
  col ← lift (column events (condition analysis));
  let y := np.float32 <$> col in
  labels ← lift (np.take sel y);
  emit (PrintedSelection (name analysis) (np.unique labels) (length sel));;
  (* Abort if there is no trial *)
  if (length sel =? 0)%nat then mret ()
  else
    (* Apply analysis *)
    emit (Printed [subject; name analysis; "fit"%string]);;
    labels ← lift (np.take sel y);
    emit (Fit sel);;
    gat ← lift (gat_fit analysis (epochs_getitem epochs sel) labels);
    emit (Printed [subject; name analysis; "score"%string]);;
    labels ← lift (np.take sel y);
    emit (Scoring sel);;
    '(gat, score) ← lift (gat_score gat (epochs_getitem epochs sel) labels);
    emit (Printed [subject; name analysis; "save"%string]);;
    (* save space *)
    let gat :=
      if bool_decide (name analysis ∉ ["probe_phase"; "target_circAngle"]%string)
      then {| estimators_ := None; y_pred_ := y_pred_ gat;
              score_mode := score_mode gat; train_times_ := train_times_ gat |}
      else gat in
    let gat :=
      if bool_decide (name analysis ∉ ["target_present"; "target_circAngle";
                                       "probe_circAngle"]%string)
      then {| estimators_ := estimators_ gat; y_pred_ := None;
              score_mode := score_mode gat; train_times_ := train_times_ gat |}
      else gat in
    (* Save analysis *)
    save (Decod gat analysis sel events) "decod" subject (name analysis);;
    save (Score score (epochs_times epochs)) "score" subject (name analysis).

(** The loop over the analyses, for one subject:
    [for analysis in analyses: _run(epochs, events, analysis)]. *)
Fixpoint run_analyses `{Extern} (subject : string) (epochs : Epochs)
    (events : DataFrame) (analyses : list Analysis) : io () :=
  match analyses with
  | [] => mret ()
  | analysis :: rest =>
      _run subject epochs events analysis;;
      run_analyses subject epochs events rest
  end.

(* ================================================================== *)
(** * Vocabulary of the properties *)

(** [m[t, ii]] *)
Definition cell (m : matrix) (t ii : nat) : option float :=
  m !! t ≫= (.!! ii).

(** The test "skip if not enough trials" of [_subscore], for a level with
    the selection [sel]. *)
Definition too_few (y_true : list float) (sel : list nat) : Prop :=
  length sel < 5 ∨
  ∃ labels, np.take sel y_true = Ok labels ∧ length (np.unique labels) < 2.

(** The trial [i] of [events] has a target. *)
Definition present_at (events : DataFrame) (i : nat) : Prop :=
  target_present <$> events !! i = Some true.

(** Two per-trial arrays of one length that are equal at every trial with
    a target. *)
Definition same_at_present {A : Type} (events : DataFrame) (xs xs' : list A)
  : Prop :=
  length xs = length xs' ∧ ∀ i, present_at events i → xs !! i = xs' !! i.

(** Two metadata tables with the same trials with a target, and the same
    rows for them. *)
Definition same_present (events events' : DataFrame) : Prop :=
  target_present <$> events = target_present <$> events' ∧
  same_at_present events events events'.

Definition same_present_ndarray (events : DataFrame) (y y' : ndarray) : Prop :=
  match y, y' with
  | Arr1 v, Arr1 v' => same_at_present events v v'
  | Arr2 n rows, Arr2 n' rows' => n = n' ∧ same_at_present events rows rows'
  | _, _ => False
  end.

(** Two prediction tensors of one shape that are equal at every trial
    with a target. *)
Definition same_present_tensor (events : DataFrame) (y y' : tensor) : Prop :=
  Forall2 (Forall2 (same_at_present events)) y y'.

(** The effects of a run that only prints. *)
Definition is_print (e : effect) : Prop :=
  match e with
  | Printed _ | PrintedSelection _ _ _ => True
  | _ => False
  end.

(* ================================================================== *)
(** * Concrete inputs *)

Module example.

(** A stand-in for the imported functions: an estimator that stores
    nothing, a subscore that counts the trials it is given, a correlation
    that adds up all it is given. *)
Definition tools : Extern := {|
  Epochs := list nat;
  Estimators := ();
  epochs_getitem := λ _ sel, sel;
  epochs_times := λ _, [];
  gat_fit := λ _ _ _,
    Ok {| estimators_ := Some (); y_pred_ := Some [];
          score_mode := "mean-fold-wise"; train_times_ := [] |};
  gat_score := λ gat _ _, Ok (gat, []);
  subscore := λ _ sel, Ok [[np.of_nat (length sel)]];
  repeated_spearman := λ X y,
    Ok [foldr PrimFloat.add 0%float (List.concat X ++ y)];
  uninitialised := λ _ _, 1%float
|}.

Definition orientation : Analysis := {|
  name := "target_circAngle";
  condition := "target_circAngle";
  query := Some target_present;
  scorer := λ _ _, Ok [0.25%float];
  chance := 0
|}.

Definition presence : Analysis := {|
  name := "target_present";
  condition := "target_present";
  query := None;
  scorer := λ _ _, Ok [0.75%float];
  chance := 0.5
|}.

(** Four trials rated 0, five rated 1, all with a target. *)
Definition events_4_5 : DataFrame :=
  [Trial 0 0.5 true 0; Trial 0 0.5 true 1; Trial 0 0.5 true 2;
   Trial 0 0.5 true 3;
   Trial 1 0.5 true 0; Trial 1 0.5 true 1; Trial 1 0.5 true 2;
   Trial 1 0.5 true 3; Trial 1 0.5 true 0].

Definition y_pred_9 : ndarray := Arr1 [0; 1; 2; 3; 0; 1; 2; 3; 0]%float.

Definition gat_2x3 : GAT () := {|
  estimators_ := None;
  y_pred_ := Some [[[]; []; []]; [[]; []; []]];
  score_mode := "mean-fold-wise";
  train_times_ := [0; 1]%float
|}.

(** Four trials with a target rated 0, and two trials without a target,
    rated 1. *)
Definition events_4_absent_2 : DataFrame :=
  [Trial 0 0.5 true 0; Trial 0 0.75 true 1; Trial 0 1 true 2;
   Trial 0 0.5 true 3;
   Trial 1 0 false PrimFloat.nan; Trial 1 0 false PrimFloat.nan].

(** Five trials with a target rated 0, and two trials without a target,
    one of them rated 0 as well. *)
Definition events_5_absent_2 : DataFrame :=
  [Trial 0 0.5 true 0; Trial 0 0.75 true 1; Trial 0 1 true 2;
   Trial 0 0.5 true 3; Trial 0 0.5 true 1;
   Trial 0 0 false PrimFloat.nan; Trial 1 0 false PrimFloat.nan].

(** Twelve trials with a target: six at contrast 0.5 and six at contrast
    0.75, the visibility ratings spread over both. *)
Definition events_12 : DataFrame :=
  [Trial 0 0.5 true 0; Trial 1 0.5 true 0; Trial 2 0.5 true 0;
   Trial 3 0.5 true 0; Trial 0 0.5 true 0; Trial 1 0.5 true 0;
   Trial 2 0.75 true 0; Trial 3 0.75 true 0; Trial 0 0.75 true 0;
   Trial 1 0.75 true 0; Trial 2 0.75 true 0; Trial 3 0.75 true 0].

Definition y_pred_12 : ndarray :=
  Arr1 [0; 1; 2; 3; 0; 1; 2; 3; 0; 1; 2; 3]%float.

Definition world_0 : @world tools := {| files := ∅; log := [] |}.

(** Trials without a target, and one with a target but no angle. *)
Definition events_no_angle : DataFrame :=
  [Trial 1 0 false PrimFloat.nan; Trial 0 0.5 true PrimFloat.nan;
   Trial 2 0 false PrimFloat.nan].

(** Two tables and two prediction arrays that differ in the trial without
    a target only. *)
Definition events_3 : DataFrame :=
  [Trial 3 1 true 0; Trial 1 0 false PrimFloat.nan; Trial 2 0.5 true 1].
Definition events_3' : DataFrame :=
  [Trial 3 1 true 0; Trial 0 0.75 false 2; Trial 2 0.5 true 1].

Definition y_pred_3 : ndarray := Arr1 [0.5; 7; 1.5]%float.
Definition y_pred_3' : ndarray := Arr1 [0.5; (-2); 1.5]%float.

Definition gat_3 : GAT () := {|
  estimators_ := None;
  y_pred_ := Some [[[[0.5]; [7]; [1.5]]]]%float;
  score_mode := "mean-fold-wise";
  train_times_ := [0%float]
|}.
Definition gat_3' : GAT () := {|
  estimators_ := None;
  y_pred_ := Some [[[[0.5]; [(-2)]; [1.5]]]]%float;
  score_mode := "mean-fold-wise";
  train_times_ := [0%float]
|}.

End example.

(* ================================================================== *)
(** * Further vocabulary *)

(** The row [i] passes the query of the analysis, and its label is a
    number: what "subselect the trials" of [_run] asks of a trial. *)
Definition eligible (analysis : Analysis) (events : DataFrame)
    (col : list float) (i : nat) : bool :=
  match events !! i, col !! i with
  | Some t, Some v =>
      match query analysis with None => true | Some q => q t end
      && negb (np.isnan v)
  | _, _ => false
  end.

(** [y[i, j, s, 0]]: the first output of the prediction for the trial [s],
    trained at the time [i] and tested at the time [j]. *)
Definition tensor_at (y : tensor) (i j s : nat) : option float :=
  train ← y !! i;
  test ← (train : list (list (list float))) !! j;
  out ← (test : list (list float)) !! s;
  (out : list float) !! 0.

(* ================================================================== *)
(** * [_duration_toi] *)

(** [np.roll(row, shift)] of one row: the entries move [shift] places to
    the right, those that leave at the end come back at the start. *)
Definition np_roll {A : Type} (row : list A) (shift : nat) : list A :=
  rotate (length row - shift `mod` length row) row.

(** [np.where((times >= toi[0]) & (times <= toi[1]))[0]] *)
Definition toi_window (times : list float) (toi : float * float) : list nat :=
  np.where_ ((λ x, PrimFloat.leb toi.1 x && PrimFloat.leb x toi.2) <$> times).

(** [np.mean(xs)] of a vector: the sum over the count; 0/0 when empty. *)
Definition np_mean (xs : list float) : float :=
  PrimFloat.div (foldl PrimFloat.add (default 0%float (head xs)) (tail xs))
                (np.of_nat (length xs)).

(** [np.mean(rows, axis=0)] for [rows] of shape (n_rows, n_cols). *)
Definition np_mean_axis0 (n_cols : nat) (rows : matrix) : list float :=
  (λ c, np_mean (omap (λ row : list float, row !! c) rows)) <$> seq 0 n_cols.

(** "align score on training time", then "center effect": the score
    matrix of each subject (the matrices are the slices of one array, so
    of one shape) goes through [align_on_diag] (imported from [jr.utils],
    here an argument), and each of its rows is rolled by half the number
    of time points ([np.roll(scores, len(times) // 2, axis=2)]). *)
Definition _duration_toi_align (align_on_diag : matrix → matrix)
    (times : list float) (scores : list matrix) : list matrix :=
  let scores := align_on_diag <$> scores in
  (λ score : matrix,
     (λ row : list float, np_roll row (length times / 2)) <$> score)
    <$> scores.

(** [score_toi] of the body of [for t, toi in enumerate(tois)]: for each
    subject, the mean over the training times of the window. *)
Definition _duration_toi_scores (align_on_diag : matrix → matrix)
    (times : list float) (scores : list matrix) (toi : float * float)
  : result matrix :=
  let scores := _duration_toi_align align_on_diag times scores in
  let toi := toi_window times toi in
  mapM (λ score : matrix,
          rows ← np.take toi score;
          Ok (np_mean_axis0 (length (default [] (head score))) rows))
       scores.

(* ================================================================== *)
(** * Further concrete inputs *)

Module sample.

(** An estimator whose [fit] fails. *)
Definition failing_tools : Extern := {|
  Epochs := list nat;
  Estimators := ();
  epochs_getitem := λ _ sel, sel;
  epochs_times := λ _, [];
  gat_fit := λ _ _ _, Raise ValueError;
  gat_score := λ gat _ _, Ok (gat, []);
  subscore := λ _ sel, Ok [[np.of_nat (length sel)]];
  repeated_spearman := λ X y,
    Ok [foldr PrimFloat.add 0%float (List.concat X ++ y)];
  uninitialised := λ _ _, 1%float
|}.

(** An analysis on a column that the metadata does not have. *)
Definition probe : Analysis := {|
  name := "probe_phase";
  condition := "probe_phase";
  query := None;
  scorer := λ _ _, Ok [0%float];
  chance := 0
|}.

(** Five predictions for the nine trials of [example.events_4_5]. *)
Definition y_pred_5 : ndarray := Arr1 [0; 1; 2; 3; 0]%float.



(** An artifact without single-trial predictions. *)
Definition gat_pruned : GAT () := {|
  estimators_ := None;
  y_pred_ := None;
  score_mode := "mean-fold-wise";
  train_times_ := [0%float]
|}.

(** Five time points, and the score matrix of one subject. *)
Definition times_5 : list float := [0; 0.25; 0.5; 0.75; 1]%float.
Definition scores_5 : list matrix :=
  [[[1; 2; 3; 4; 5]; [6; 7; 8; 9; 10]; [11; 12; 13; 14; 15];
    [16; 17; 18; 19; 20]; [21; 22; 23; 24; 25]]%float].

End sample.
(* ================================================================== *)
(** * Properties *)

(** ** The error monad and the loops *)

Lemma bind_Ok {A B : Type} (m : result A) (f : A → result B) (b : B) :
  m ≫= f = Ok b ↔ ∃ a, m = Ok a ∧ f a = Ok b.
Proof.
  destruct m as [a|e]; simpl; split.
  - eauto.
  - intros (a' & [= <-] & Hf). exact Hf.
  - discriminate.
  - intros (a' & [=] & _).
Qed.

Lemma for_loop_app {A S : Type} (body : A → S → result S) (l1 l2 : list A) (s : S) :
  for_loop body (l1 ++ l2) s = for_loop body l1 s ≫= for_loop body l2.
Proof.
  revert s. induction l1 as [|x l1 IH]; intros s; simpl; [done|].
  destruct (body x s) as [s'|e]; simpl; [apply IH|done].
Qed.

(** ** Floating point *)

Example remainder_positive : np.remainder 7 2 = 1%float.
Proof. reflexivity. Qed.

Example remainder_negative : np.remainder (-1) 2 = 1%float.
Proof. reflexivity. Qed.

Example remainder_half_turn : np.remainder np.pi (2 * np.pi) = np.pi.
Proof. reflexivity. Qed.

Example unique_keeps_every_nan :
  np.unique [2; PrimFloat.nan; 1; 2; PrimFloat.nan]%float
  = [1; 2; PrimFloat.nan; PrimFloat.nan]%float.
Proof. reflexivity. Qed.

Example nanmean_skips_nan : np.nanmean [3; PrimFloat.nan; 1]%float = 2%float.
Proof. reflexivity. Qed.

Example intersect1d_sorts : np.intersect1d [5; 1; 3; 5] [3; 5; 7] = [3; 5].
Proof. reflexivity. Qed.


(** ** Index arrays *)

Lemma elem_of_where (mask : list bool) (i : nat) :
  i ∈ np.where_ mask ↔ mask !! i = Some true.
Proof.
  unfold np.where_. rewrite list_elem_of_filter, elem_of_seq. split.
  - tauto.
  - intros Hi. split; [done|]. apply lookup_lt_Some in Hi. lia.
Qed.

Lemma elem_of_intersect1d (a b : list nat) (i : nat) :
  i ∈ np.intersect1d a b ↔ i ∈ a ∧ i ∈ b.
Proof.
  unfold np.intersect1d. rewrite list_elem_of_filter, elem_of_seq. split.
  - tauto.
  - intros [Ha Hb]. split; [done|]. apply max_list_elem_of_le in Ha. lia.
Qed.
Lemma StronglySorted_lt_seq (j n : nat) : StronglySorted lt (seq j n).
Proof.
  revert j. induction n as [|n IH]; intros j; simpl; constructor; [apply IH|].
  apply Forall_forall. intros x Hx%elem_of_seq. lia.
Qed.

Lemma StronglySorted_filter {A : Type} (R : relation A) (P : A → Prop)
    `{∀ x, Decision (P x)} (l : list A) :
  StronglySorted R l → StronglySorted R (filter P l).
Proof.
  induction 1 as [|x l Hl IH Hx]; [constructor|].
  rewrite filter_cons. destruct (decide (P x)); [|done].
  constructor; [done|].
  apply Forall_forall. intros y [_ Hy]%list_elem_of_filter.
  by eapply Forall_forall in Hx.
Qed.

Lemma intersect1d_sorted (a b : list nat) :
  StronglySorted lt (np.intersect1d a b) ∧ NoDup (np.intersect1d a b).
Proof.
  split.
  - apply StronglySorted_filter, StronglySorted_lt_seq.
  - apply NoDup_filter, NoDup_seq.
Qed.

(** The result of [np.intersect1d] is determined by the values that the
    two arrays share. *)
Lemma intersect1d_ext (a b a' b' : list nat) :
  (∀ i, i ∈ a ∧ i ∈ b ↔ i ∈ a' ∧ i ∈ b') →
  np.intersect1d a b = np.intersect1d a' b'.
Proof.
  intros Hext.
  assert (AntiSymm eq lt) by (intros x y ??; lia).
  apply (StronglySorted_unique lt); try apply intersect1d_sorted.
  apply NoDup_Permutation; try apply intersect1d_sorted.
  intros i. rewrite !elem_of_intersect1d. apply Hext.
Qed.

Lemma take_ext {A : Type} (sel : list nat) (xs ys : list A) :
  (∀ i, i ∈ sel → xs !! i = ys !! i) → np.take sel xs = np.take sel ys.
Proof.
  induction sel as [|i sel IH]; intros Hext; simpl; [done|].
  rewrite <- (Hext i) by set_solver.
  rewrite IH; [done|]. intros j Hj. apply Hext. set_solver.
Qed.

Lemma take_Ok_length {A : Type} (sel : list nat) (xs r : list A) :
  np.take sel xs = Ok r → length r = length sel.
Proof.
  revert r. induction sel as [|i sel IH]; intros r; simpl.
  - by intros [= <-].
  - destruct (xs !! i); [|done].
    destruct (np.take sel xs) as [r'|]; simpl; [|done].
    intros [= <-]. simpl. f_equal. by apply IH.
Qed.

Lemma take_in_range {A : Type} (sel : list nat) (xs : list A) :
  Forall (λ i, i < length xs) sel → ∃ r, np.take sel xs = Ok r.
Proof.
  induction 1 as [|i sel Hi _ [r IH]]; simpl; [by eexists|].
  destruct (lookup_lt_is_Some_2 xs i Hi) as [x ->].
  rewrite IH. simpl. by eexists.
Qed.

Lemma nan_zeros_eq (n_rows n_cols : nat) :
  np.nan_zeros n_rows n_cols = replicate n_rows (replicate n_cols np.nan).
Proof. reflexivity. Qed.
Lemma elem_of_enumerate {A : Type} (l : list A) (i : nat) (x : A) :
  (i, x) ∈ enumerate l ↔ l !! i = Some x.
Proof.
  unfold enumerate. rewrite list_elem_of_lookup. split.
  - intros [k Hk]. apply lookup_zip_with_Some in Hk as (j & y & [= -> ->] & Hj & Hy).
    apply lookup_seq in Hj as [-> _]. done.
  - intros Hi. exists i. apply lookup_zip_with_Some. exists i, x.
    split_and!; [done| |done]. apply lookup_seq. split; [done|].
    by apply lookup_lt_Some in Hi.
Qed.

Lemma enumerate_split {A : Type} (l : list A) (i : nat) (x : A) :
  l !! i = Some x →
  ∃ l1 l2, enumerate l = l1 ++ (i, x) :: l2 ∧ (i ∉ l1.*1) ∧ (i ∉ l2.*1).
Proof.
  intros Hi. pose proof (proj2 (elem_of_enumerate l i x) Hi) as Hin.
  apply list_elem_of_split in Hin as (l1 & l2 & Heq). exists l1, l2.
  split; [done|].
  assert (NoDup (fst <$> enumerate l)) as Hnd.
  { unfold enumerate. rewrite fst_zip by (rewrite length_seq; lia).
    apply NoDup_seq. }
  rewrite Heq, fmap_app, fmap_cons in Hnd. simpl in Hnd.
  apply NoDup_app in Hnd as (_ & Hdisj & [Hi2 _]%NoDup_cons).
  split; [|done]. intros Hi1. apply (Hdisj i Hi1). apply list_elem_of_here.
Qed.

(** ** [scores[:, ii] = v] *)

Lemma assign_column_Ok (ii : nat) (v : list float) (scores scores' : matrix) :
  assign_column ii v scores = Ok scores' →
  ∃ vb, length vb = length scores ∧
        scores' = zip_with (λ (row : list float) x, <[ii := x]> row) scores vb ∧
        ∀ x, x ∈ vb → x ∈ v.
Proof.
  unfold assign_column. destruct (decide (length v = length scores)) as [Hl|Hl].
  - intros [= <-]. by exists v.
  - destruct v as [|x [|??]]; try done. intros [= <-].
    exists (replicate (length scores) x). rewrite length_replicate.
    split_and!; [done..|]. intros y [-> _]%elem_of_replicate. set_solver.
Qed.

Lemma set_column_length (ii : nat) (scores : matrix) (vb : list float) :
  length vb = length scores →
  length (zip_with (λ (row : list float) x, <[ii := x]> row) scores vb)
  = length scores.
Proof. intros Hl. rewrite length_zip_with. lia. Qed.

Lemma set_column_rows (ii n : nat) (scores : matrix) (vb : list float) :
  Forall (λ row, length row = n) scores →
  Forall (λ row, length row = n)
         (zip_with (λ (row : list float) x, <[ii := x]> row) scores vb).
Proof.
  intros Hrows. apply Forall_forall. intros row Hrow.
  apply elem_of_lookup_zip_with in Hrow as (t & row0 & x & -> & Hr & _).
  rewrite length_insert.
  eapply Forall_forall in Hrows; [done|]. by eapply list_elem_of_lookup_2.
Qed.



(** ** The loop of [_subscore] *)

Section subscore_loop.
Context (analysis : Analysis) (events : DataFrame) (key : string).
Context (y_true keycol : list float) (y_pred : matrix).
Hypothesis Hkey : column events key = Ok keycol.

Let body := _subscore_level analysis events key y_true y_pred.
Let sel_of := _subscore_sel analysis events keycol.


(** What an iteration that returns has done. *)
Lemma subscore_level_Ok (ii : nat) (value : float) (acc acc' : matrix) :
  body (ii, value) acc = Ok acc' →
  (too_few y_true (sel_of value) ∧ acc' = acc) ∨
  (∃ labels preds score,
      5 ≤ length (sel_of value) ∧
      np.take (sel_of value) y_true = Ok labels ∧
      2 ≤ length (np.unique labels) ∧
      np.take (sel_of value) y_pred = Ok preds ∧
      scorer analysis labels preds = Ok score ∧
      assign_column ii score acc = Ok acc').
Proof using Hkey.
  unfold body, sel_of, _subscore_level, too_few. rewrite Hkey. simpl.
  destruct (_ <? 5)%nat eqn:Hlen.
  { intros [= <-]. left. apply Nat.ltb_lt in Hlen. auto. }
  apply Nat.ltb_ge in Hlen.
  destruct (np.take _ y_true) as [labels|] eqn:Hlabels; simpl; [|done].
  destruct (_ <? 2)%nat eqn:Huniq.
  { intros [= <-]. left. apply Nat.ltb_lt in Huniq. eauto. }
  apply Nat.ltb_ge in Huniq.
  destruct (np.take _ y_pred) as [preds|] eqn:Hpreds; simpl; [|done].
  destruct (scorer analysis labels preds) as [score|] eqn:Hscore; simpl; [|done].
  intros Hassign. right. exists labels, preds, score. auto 10.
Qed.

Lemma subscore_level_shape (n : nat) (iv : nat * float) (acc acc' : matrix) :
  body iv acc = Ok acc' →
  length acc' = length acc ∧
  (Forall (λ row, length row = n) acc → Forall (λ row, length row = n) acc').
Proof using Hkey.
  destruct iv as [ii value].
  intros [[_ ->]|(labels & preds & score & _ & _ & _ & _ & _ & Ha)]%subscore_level_Ok;
    [done|].
  apply assign_column_Ok in Ha as (vb & Hl & -> & _).
  split; [by apply set_column_length|]. apply set_column_rows.
Qed.

Lemma subscore_loop_shape (n : nat) (l : list (nat * float)) (acc scores : matrix) :
  for_loop body l acc = Ok scores →
  length scores = length acc ∧
  (Forall (λ row, length row = n) acc → Forall (λ row, length row = n) scores).
Proof using Hkey.
  revert acc. induction l as [|iv l IH]; intros acc; simpl.
  { by intros [= <-]. }
  intros (acc' & Hstep & Hrest)%bind_Ok.
  apply (subscore_level_shape n) in Hstep as [Hl Hrows].
  apply IH in Hrest as [Hl' Hrows']. split; [congruence|auto].
Qed.


End subscore_loop.

Lemma subscore_unfold (y_pred : ndarray) (events : DataFrame)
    (analysis : Analysis) (factor key : string) (values y_true : list float) :
  factors factor = Ok (key, values) →
  column events (name analysis) = Ok y_true →
  _subscore y_pred events analysis factor
  = for_loop (_subscore_level analysis events key y_true (as_2d y_pred).2)
             (enumerate values)
             (replicate (as_2d y_pred).1 (replicate (length values) np.nan)).
Proof.
  intros Hf Hy. unfold _subscore. rewrite Hf. simpl. rewrite Hy. simpl.
  by destruct (as_2d y_pred).
Qed.

Lemma for_loop_fixed {A S : Type} (body : A → S → result S) (l : list A) (s : S) :
  (∀ x, x ∈ l → body x s = Ok s) → for_loop body l s = Ok s.
Proof.
  induction l as [|x l IH]; intros Hfix; simpl; [done|].
  rewrite Hfix by apply list_elem_of_here. simpl.
  apply IH. intros y Hy. apply Hfix. by apply list_elem_of_further.
Qed.

(** ** The NaN placeholder of [_subscore_pipeline] *)

Lemma fmap_const_seq {A : Type} (c : A) (j n : nat) :
  (λ _, c) <$> seq j n = replicate n c.
Proof. revert j. induction n as [|n IH]; intros j; simpl; [done|]. by rewrite IH. Qed.



(* ================================================================== *)
(** * Absent trials in the target-present analysis *)

(** C2, as stated, for [_subscore_pipeline]: were the absent trials
    joined before the minimum count, a level would be scored as soon as
    the level's trials and the absent trials together are 5.  Four
    trials rated 0 and two absent trials are 6 together, yet the level is
    not scored. *)
Lemma pipeline_counts_before_joining :
  ¬ (∀ (analysis : Analysis) (events : DataFrame) (vis : nat),
       name analysis = "target_present" →
       let level :=
         np.where_ ((λ t, PrimFloat.eqb (detect_button t) (np.of_nat vis))
                      <$> events) in
       let sel := np.r_ level (absent_trials events) in
       _subscore_pipeline_sel analysis events vis
       = if (length sel <? 5)%nat then None else Some sel).
Proof.
  intros Hclaim.
  specialize (Hclaim example.presence example.events_4_absent_2 0 eq_refl).
  vm_compute in Hclaim. discriminate Hclaim.
Qed.

(** C2, amended.  In the target-present analysis: [_subscore] tests the
    minimum count on, and scores, the trials of the level followed by all
    the absent trials, for every level; the members of that selection are
    those of the union.  [_subscore_pipeline] tests the minimum count on
    the trials of the level alone; a level of at least 5 trials is scored
    on its trials followed by all the absent trials, a level of fewer is
    not scored. *)
Theorem absent_trials_joined `{Extern}
    (analysis : Analysis) (events : DataFrame) (key : string)
    (y_true keycol : list float) (y_pred : matrix) (gat : GAT Estimators)
    (ii vis : nat) (value : float) (acc acc' : matrix) :
  name analysis = "target_present" →
  column events key = Ok keycol →
  let level := np.where_ ((λ x, PrimFloat.eqb x value) <$> keycol) in
  let level_vis :=
    np.where_ ((λ t, PrimFloat.eqb (detect_button t) (np.of_nat vis))
                 <$> events) in
  let absent := absent_trials events in
  _subscore_sel analysis events keycol value = level ++ absent ∧
  (∀ i, i ∈ _subscore_sel analysis events keycol value ↔ i ∈ level ∨ i ∈ absent) ∧
  (_subscore_level analysis events key y_true y_pred (ii, value) acc = Ok acc' →
     (too_few y_true (level ++ absent) ∧ acc' = acc) ∨
     (∃ labels preds score,
        np.take (level ++ absent) y_true = Ok labels ∧
        np.take (level ++ absent) y_pred = Ok preds ∧
        scorer analysis labels preds = Ok score ∧
        assign_column ii score acc = Ok acc')) ∧
  (5 ≤ length level_vis →
     _subscore_pipeline_level analysis gat events vis
     = subscore gat (level_vis ++ absent)) ∧
  (length level_vis < 5 → _subscore_pipeline_sel analysis events vis = None).
Proof.
  intros Hname Hkey level level_vis absent.
  assert (_subscore_sel analysis events keycol value = level ++ absent) as Hsel.
  { unfold _subscore_sel. by rewrite Hname. }
  split_and!.
  - done.
  - intros i. rewrite Hsel. apply elem_of_app.
  - intros Hstep.
    apply (subscore_level_Ok _ _ _ _ keycol _ Hkey) in Hstep
      as [[Hfew ->]|(labels & preds & score & _ & Hlab & _ & Hpreds & Hscore & Ha)];
      rewrite Hsel in *.
    + by left.
    + right. by exists labels, preds, score.
  - intros Hlen. unfold _subscore_pipeline_level, _subscore_pipeline_sel.
    fold level_vis. apply Nat.ltb_ge in Hlen. by rewrite Hlen, Hname.
  - intros Hlen. unfold _subscore_pipeline_sel. fold level_vis.
    apply Nat.ltb_lt in Hlen. by rewrite Hlen.
Qed.

(* ================================================================== *)
(** * A run without eligible trial *)

(** C3.  When the trial selection of [_run] is empty (and the condition
    is a column of the metadata), the run returns: it raises nothing, the
    files are as before, and it has only printed, so that there was no
    fit and no save; the loop over the analyses goes on with the next
    one. *)
Theorem run_empty_selection `{Extern} (subject : string) (epochs : Epochs)
    (events : DataFrame) (analysis : Analysis) (rest : list Analysis)
    (col : list float) (w : world) :
  trial_selection events analysis = Ok [] →
  column events (condition analysis) = Ok col →
  ∃ printed,
    Forall is_print printed ∧
    _run subject epochs events analysis w
    = (Ok (), {| files := files w; log := log w ++ printed |}) ∧
    run_analyses subject epochs events (analysis :: rest) w
    = run_analyses subject epochs events rest
        {| files := files w; log := log w ++ printed |}.
Proof.
  intros Hsel Hcol.
  exists [Printed [subject; name analysis];
          PrintedSelection (name analysis) (np.unique []) 0].
  assert (_run subject epochs events analysis w
          = (Ok (), {| files := files w;
                       log := log w ++ [Printed [subject; name analysis];
                                        PrintedSelection (name analysis)
                                          (np.unique []) 0] |})) as Hrun.
  { unfold _run, mbind, io_bind, emit, lift, mret, io_ret. simpl.
    rewrite Hsel, Hcol. simpl. by rewrite <- app_assoc. }
  split_and!.
  - by repeat constructor.
  - done.
  - simpl. unfold mbind at 1, io_bind. by rewrite Hrun.
Qed.

(* ================================================================== *)
(** * The single-trial error *)

(** C4.  The entry of the error array for the trial [i] and the time point
    [t] is [|π − ((pred − true) mod 2π)|] in an analysis whose name
    contains [circAngle], and [|pred − true|] otherwise; in the plain mode,
    once the lengths agree, [_subregress] correlates the rows of that
    array with the factor. *)
Theorem single_trial_error_formula `{Extern} (analysis : Analysis)
    (y_pred : matrix) (y_true : list float) (i t : nat) (row : list float)
    (p y : float) :
  y_pred !! i = Some row → row !! t = Some p → y_true !! i = Some y →
  cell (single_trial_error analysis y_pred y_true) i t
  = Some (if contains "circAngle" (name analysis)
          then PrimFloat.abs (np.pi - np.remainder (p - y) (2 * np.pi))
          else PrimFloat.abs (p - y))%float
  ∧ ∀ (events : DataFrame) (factor key : string) (values keycol : list float)
      (v0 : float) (n_times : nat),
      factors factor = Ok (key, values) →
      column events (name analysis) = Ok y_true →
      column events key = Ok keycol →
      values !! 0 = Some v0 →
      length y_pred = length y_true →
      _subregress (Arr2 n_times y_pred) events analysis factor false
      = (errors ← np.take (_subregress_sel events keycol v0)
                          (single_trial_error analysis y_pred y_true);
         xs ← np.take (_subregress_sel events keycol v0) keycol;
         repeated_spearman errors xs).
Proof.
  intros Hrow Hp Hy. split.
  - unfold cell, single_trial_error.
    destruct (contains "circAngle" (name analysis)).
    + rewrite list_lookup_fmap, lookup_zip_with, Hrow, Hy. simpl.
      by rewrite !list_lookup_fmap, Hp.
    + rewrite lookup_zip_with, Hrow, Hy. simpl.
      by rewrite list_lookup_fmap, Hp.
  - intros events factor key values keycol v0 n_times Hf Hcol Hkey Hv0 Hlen.
    unfold _subregress. rewrite Hf. simpl. rewrite Hcol. simpl.
    destruct (decide (length y_pred ≠ length y_true)); [done|].
    rewrite Hkey. simpl. by rewrite Hv0.
Qed.

(** C5.  What the code computes at the two anchors of the claim, for a
    circular analysis and the true angle 0: the prediction 0 has the
    error π, the prediction π has the error 0. *)
Theorem circular_error_anchors :
  single_trial_error example.orientation [[0%float]] [0%float] = [[np.pi]] ∧
  single_trial_error example.orientation [[np.pi]] [0%float] = [[0%float]].
Proof. split; vm_compute; reflexivity. Qed.

(* ================================================================== *)
(** * The length check of the regression *)

(** C7.  When the predictions and the true values differ in length,
    [_subregress] raises: with any factor it does not return an array,
    and with a factor of the [factors] dictionary it raises [ValueError];
    this for every implementation of the correlation, which is not
    reached. *)
Theorem subregress_length_mismatch `{Extern} (y_pred : ndarray)
    (events : DataFrame) (analysis : Analysis) (factor : string)
    (independent : bool) (y_true : list float) :
  column events (name analysis) = Ok y_true →
  len y_pred ≠ length y_true →
  (∃ e, _subregress y_pred events analysis factor independent = Raise e) ∧
  (∀ key values, factors factor = Ok (key, values) →
     _subregress y_pred events analysis factor independent = Raise ValueError).
Proof.
  intros Hcol Hlen.
  assert (∀ key values, factors factor = Ok (key, values) →
            _subregress y_pred events analysis factor independent
            = Raise ValueError) as Hraise.
  { intros key values Hf. unfold _subregress. rewrite Hf. simpl.
    rewrite Hcol. simpl. by destruct (decide _). }
  split; [|done].
  destruct (factors factor) as [[key values]|e] eqn:Hf.
  - exists ValueError. by eapply Hraise.
  - exists e. unfold _subregress. by rewrite Hf.
Qed.

(* ================================================================== *)
(** * The independent mode of the regression *)

(** C8.  What the code computes when the present trials are six at the
    contrast 0.5 and six at the contrast 0.75: in the independent mode for
    the visibility, no level is correlated (whatever the correlation is)
    and the result is NaN; the levels that the loop goes through are those
    of the visibility, not those of the contrast. *)
Theorem independent_mode_levels `{Extern} :
  _subregress example.y_pred_12 example.events_12 example.presence
              "visibility" true
  = Ok [np.nan].
Proof. vm_compute. reflexivity. Qed.

(* ================================================================== *)
(** * The trials without a target do not enter the correlations *)

Lemma for_loop_ext {A S : Type} (body body' : A → S → result S) (l : list A) (s : S) :
  (∀ x s, x ∈ l → body x s = body' x s) → for_loop body l s = for_loop body' l s.
Proof.
  revert s. induction l as [|x l IH]; intros s Hext; simpl; [done|].
  rewrite Hext by apply list_elem_of_here.
  destruct (body' x s) as [s'|e]; simpl; [|done].
  apply IH. intros y s'' Hy. apply Hext. by apply list_elem_of_further.
Qed.

Lemma mapM_Forall2 {A B : Type} (R : A → A → Prop) (f : A → result B) (l l' : list A) :
  Forall2 R l l' → (∀ x x', R x x' → f x = f x') → mapM f l = mapM f l'.
Proof.
  intros HR Hf. induction HR as [|x x' l l' Hx _ IH]; simpl; [done|].
  by rewrite (Hf x x' Hx), IH.
Qed.

Section same_present.
Context (events events' : DataFrame).
Hypothesis Hsame : same_present events events'.

Lemma same_present_length : length events = length events'.
Proof using Hsame. apply Hsame. Qed.

Lemma same_present_mask (p : bool → bool) :
  (λ t, p (target_present t)) <$> events = (λ t, p (target_present t)) <$> events'.
Proof using Hsame.
  destruct Hsame as [Hmask _]. apply list_eq. intros i.
  assert (target_present <$> events !! i = target_present <$> events' !! i) as Hi
    by (by rewrite <- !list_lookup_fmap, Hmask).
  rewrite !list_lookup_fmap.
  destruct (events !! i), (events' !! i); simpl in *; congruence.
Qed.

Lemma same_present_fmap {A : Type} (f : trial → A) :
  same_at_present events (f <$> events) (f <$> events').
Proof using Hsame.
  destruct Hsame as [_ [Hlen Hrows]]. split.
  - by rewrite !length_fmap.
  - intros i Hi. by rewrite !list_lookup_fmap, (Hrows i Hi).
Qed.

(** A column of the one table is, at the trials with a target, the column
    of the other. *)
Lemma same_present_column (nm : string) :
  match column events nm, column events' nm with
  | Ok c, Ok c' => same_at_present events c c'
  | Raise e, Raise e' => e = e'
  | _, _ => False
  end.
Proof using Hsame.
  unfold column.
  repeat (destruct (String.eqb nm _); [apply same_present_fmap|]). done.
Qed.

Lemma same_present_error (analysis : Analysis) (rows rows' : matrix)
    (y_true y_true' : list float) :
  same_at_present events rows rows' →
  same_at_present events y_true y_true' →
  same_at_present events (single_trial_error analysis rows y_true)
                         (single_trial_error analysis rows' y_true').
Proof.
  intros [Hl Hrows] [Hl' Hy]. unfold single_trial_error.
  destruct (contains "circAngle" (name analysis)); split.
  - rewrite !length_fmap, !length_zip_with. lia.
  - intros i Hi. rewrite !list_lookup_fmap, !lookup_zip_with.
    by rewrite (Hrows i Hi), (Hy i Hi).
  - rewrite !length_zip_with. lia.
  - intros i Hi. rewrite !lookup_zip_with.
    by rewrite (Hrows i Hi), (Hy i Hi).
Qed.

Lemma same_present_as_2d (y y' : ndarray) :
  same_present_ndarray events y y' →
  len y = len y' ∧ (as_2d y).1 = (as_2d y').1 ∧
  same_at_present events (as_2d y).2 (as_2d y').2.
Proof.
  destruct y as [v|n rows], y' as [v'|n' rows']; simpl; try done.
  - intros [Hl Hv]. split_and!; [done..|]. split.
    + by rewrite !length_fmap.
    + intros i Hi. by rewrite !list_lookup_fmap, (Hv i Hi).
  - intros [-> [Hl Hrows]]. by split_and!.
Qed.

Lemma where_present (i : nat) :
  i ∈ np.where_ ((λ t, Bool.eqb (target_present t) true) <$> events) →
  present_at events i.
Proof.
  rewrite elem_of_where. unfold present_at. rewrite list_lookup_fmap.
  destruct (events !! i) as [t|]; simpl; [|done].
  by destruct (target_present t).
Qed.

(** The trials of the regression are trials with a target, the same for
    both tables. *)
Lemma subregress_sel_present (keycol : list float) (v0 : float) (i : nat) :
  i ∈ _subregress_sel events keycol v0 → present_at events i.
Proof.
  unfold _subregress_sel. rewrite elem_of_intersect1d.
  intros [Hi _]. by apply where_present.
Qed.

Lemma same_present_where (p : float → bool) (c c' : list float) (i : nat) :
  same_at_present events c c' → present_at events i →
  i ∈ np.where_ (p <$> c) ↔ i ∈ np.where_ (p <$> c').
Proof.
  intros [_ Hc] Hi. by rewrite !elem_of_where, !list_lookup_fmap, (Hc i Hi).
Qed.

Lemma same_present_subregress_sel (keycol keycol' : list float) (v0 : float) :
  same_at_present events keycol keycol' →
  _subregress_sel events keycol v0 = _subregress_sel events' keycol' v0.
Proof using Hsame.
  intros Hkey. unfold _subregress_sel.
  rewrite <- (same_present_mask (λ b, Bool.eqb b true)).
  apply intersect1d_ext. intros i. split; intros [Hi Hk]; (split; [done|]).
  - by apply (same_present_where _ keycol keycol' i Hkey (where_present i Hi)).
  - by apply (same_present_where _ keycol keycol' i Hkey (where_present i Hi)).
Qed.

Lemma same_present_take {A : Type} (sel : list nat) (xs xs' : list A) :
  same_at_present events xs xs' →
  (∀ i, i ∈ sel → present_at events i) →
  np.take sel xs = np.take sel xs'.
Proof.
  intros [_ Hxs] Hsel. apply take_ext. intros i Hi. apply Hxs, Hsel, Hi.
Qed.

Lemma same_present_subregress_level `{Extern} (key cov_factor : string)
    (n_times : nat) (y_error y_error' : matrix) (sel : list nat)
    (iv : nat * float) (R : matrix) :
  same_at_present events y_error y_error' →
  (∀ i, i ∈ sel → present_at events i) →
  _subregress_level events key cov_factor n_times y_error sel iv R
  = _subregress_level events' key cov_factor n_times y_error' sel iv R.
Proof using Hsame.
  intros Herr Hsel. destruct iv as [ii cov_value]. unfold _subregress_level.
  pose proof (same_present_column cov_factor) as Hcov.
  destruct (column events cov_factor) as [covcol|e],
           (column events' cov_factor) as [covcol'|e']; try done;
    [|by subst]. simpl.
  assert (np.intersect1d
            (np.where_ ((λ x, PrimFloat.eqb x cov_value) <$> covcol)) sel
          = np.intersect1d
              (np.where_ ((λ x, PrimFloat.eqb x cov_value) <$> covcol')) sel)
    as <-.
  { apply intersect1d_ext. intros i. split; intros [Hi Hk]; (split; [|done]).
    - by apply (same_present_where _ covcol covcol' i Hcov (Hsel i Hk)).
    - by apply (same_present_where _ covcol covcol' i Hcov (Hsel i Hk)). }
  set (cov_sel := np.intersect1d _ sel).
  destruct (_ <=? 5)%nat; [done|].
  assert (∀ i, i ∈ cov_sel → present_at events i) as Hcov_sel.
  { intros i [_ Hi]%elem_of_intersect1d. by apply Hsel. }
  rewrite (same_present_take cov_sel y_error y_error' Herr Hcov_sel).
  destruct (np.take cov_sel y_error') as [errors|]; simpl; [|done].
  pose proof (same_present_column key) as Hkey.
  destruct (column events key) as [keycol|e],
           (column events' key) as [keycol'|e']; try done; [|by subst].
  simpl. by rewrite (same_present_take cov_sel keycol keycol' Hkey Hcov_sel).
Qed.

Lemma same_present_subregress `{Extern} (y_pred y_pred' : ndarray)
    (analysis : Analysis) (factor : string) (independent : bool) :
  same_present_ndarray events y_pred y_pred' →
  _subregress y_pred events analysis factor independent
  = _subregress y_pred' events' analysis factor independent.
Proof using Hsame.
  intros (Hlen & Hn & Hrows)%same_present_as_2d. unfold _subregress.
  destruct (factors factor) as [[key values]|]; simpl; [|done].
  pose proof (same_present_column (name analysis)) as Hy.
  destruct (column events (name analysis)) as [y_true|e],
           (column events' (name analysis)) as [y_true'|e']; try done;
    [|by subst]. simpl.
  rewrite <- Hlen, <- (proj1 Hy).
  destruct (decide (len y_pred ≠ length y_true)); [done|].
  destruct (as_2d y_pred) as [n_times rows],
           (as_2d y_pred') as [n_times' rows']. simpl in Hn, Hrows. subst n_times'.
  pose proof (same_present_error analysis rows rows' y_true y_true' Hrows Hy)
    as Herr.
  pose proof (same_present_column key) as Hkey.
  destruct (column events key) as [keycol|e],
           (column events' key) as [keycol'|e']; try done; [|by subst]. simpl.
  destruct (values !! 0) as [v0|]; simpl; [|done].
  rewrite <- (same_present_subregress_sel keycol keycol' v0 Hkey).
  set (sel := _subregress_sel events keycol v0).
  assert (∀ i, i ∈ sel → present_at events i) as Hsel
    by (intros i; apply subregress_sel_present).
  destruct independent.
  - erewrite for_loop_ext; [done|].
    intros iv R _. by apply same_present_subregress_level.
  - rewrite (same_present_take sel _ _ Herr Hsel).
    by rewrite (same_present_take sel _ _ Hkey Hsel).
Qed.
End same_present.

Lemma same_present_iloc (events events' : DataFrame) (events_sel : list nat) :
  same_present events events' →
  match iloc events events_sel, iloc events' events_sel with
  | Ok ev, Ok ev' => same_present ev ev'
  | Raise e, Raise e' => e = e'
  | _, _ => False
  end.
Proof.
  intros (Hmask & Hlen & Hrows). unfold iloc.
  induction events_sel as [|i sel IH]; simpl.
  { repeat split. }
  assert (target_present <$> events !! i = target_present <$> events' !! i) as Hi.
  { by rewrite <- !list_lookup_fmap, Hmask. }
  destruct (events !! i) as [t|] eqn:Ht, (events' !! i) as [t'|] eqn:Ht';
    try done.
  destruct (np.take sel events) as [ev|e], (np.take sel events') as [ev'|e'];
    try done; simpl.
  destruct IH as (Hmask' & Hlen' & Hrows'). split; [|split].
  - rewrite !fmap_cons. f_equal; [|done]. simpl in Hi. congruence.
  - simpl. by rewrite Hlen'.
  - intros [|k]; unfold present_at; simpl.
    + intros [= Hp]. f_equal. 
      assert (events !! i = events' !! i) as Heq.
      { apply Hrows. unfold present_at. by rewrite Ht; simpl; rewrite Hp. }
      congruence.
    + apply Hrows'.
Qed.

Lemma same_present_correlate `{Extern} (gat gat' : GAT Estimators)
    (y y' : tensor) (events events' : DataFrame) (events_sel : list nat) :
  same_present events events' →
  y_pred_ gat = Some y → y_pred_ gat' = Some y' →
  (∀ ev, iloc events events_sel = Ok ev → same_present_tensor ev y y') →
  _correlate_subject gat events_sel events
  = _correlate_subject gat' events_sel events'.
Proof.
  intros Hsame Hy Hy' Htensor. unfold _correlate_subject.
  pose proof (same_present_iloc events events' events_sel Hsame) as Hiloc.
  destruct (iloc events events_sel) as [ev|e],
           (iloc events' events_sel) as [ev'|e']; try done; [|by subst].
  simpl. specialize (Htensor ev eq_refl).
  rewrite <- (proj1 Hiloc).
  set (sel := np.where_ (target_present <$> ev)).
  assert (∀ i, i ∈ sel → present_at ev i) as Hsel.
  { intros i Hi%elem_of_where. unfold present_at.
    by rewrite <- list_lookup_fmap. }
  rewrite (same_present_take ev sel _ _
             (same_present_fmap ev ev' Hiloc detect_button) Hsel).
  destruct (np.take sel (detect_button <$> ev')) as [y_vis|]; simpl; [|done].
  rewrite Hy, Hy'. simpl.
  assert (mapM (mapM (np.take sel)) y = mapM (mapM (np.take sel)) y') as ->; [|done].
  eapply mapM_Forall2; [exact Htensor|].
  intros train train' Htrain. eapply mapM_Forall2; [exact Htrain|].
  intros trials trials' Htrials. by apply (same_present_take ev).
Qed.

(** C10.  The correlations are computed from the trials with a target
    only.  For two inputs with the same trials with a target, the same
    metadata and the same predictions for them, and anything for the
    trials without a target, [_subregress] returns the same in either
    mode, and the body of [_correlate] returns the same. *)
Theorem absent_trials_do_not_matter `{Extern}
    (y_pred y_pred' : ndarray) (events events' : DataFrame)
    (analysis : Analysis) (factor : string) (independent : bool)
    (gat gat' : GAT Estimators) (y y' : tensor) (events_sel : list nat) :
  same_present events events' →
  same_present_ndarray events y_pred y_pred' →
  y_pred_ gat = Some y → y_pred_ gat' = Some y' →
  (∀ ev, iloc events events_sel = Ok ev → same_present_tensor ev y y') →
  _subregress y_pred events analysis factor independent
  = _subregress y_pred' events' analysis factor independent ∧
  _correlate_subject gat events_sel events
  = _correlate_subject gat' events_sel events'.
Proof.
  intros Hsame Hpred Hy Hy' Htensor. split.
  - by apply same_present_subregress.
  - by eapply same_present_correlate.
Qed.

(* ================================================================== *)
(** * The properties at concrete inputs *)


Lemma absent_trials_joined_witness :
  _subscore_sel example.presence example.events_5_absent_2
    (detect_button <$> example.events_5_absent_2) 0
  = [0; 1; 2; 3; 4; 5; 5; 6] ∧
  @_subscore_pipeline_level example.tools example.presence example.gat_2x3
    example.events_5_absent_2 0
  = Ok [[8%float]].
Proof.
  pose proof (@absent_trials_joined example.tools example.presence
                example.events_5_absent_2 "detect_button"
                ((λ t, np.of_bool (target_present t)) <$> example.events_5_absent_2)
                (detect_button <$> example.events_5_absent_2)
                [] example.gat_2x3 0 0 0%float [] []
                eq_refl eq_refl) as (Hsel & _ & _ & Hpipe & _).
  split.
  - rewrite Hsel. vm_compute. reflexivity.
  - rewrite Hpipe; [reflexivity|]. vm_compute. lia.
Defined.

Lemma run_empty_selection_witness :
  trial_selection example.events_no_angle example.orientation = Ok [] ∧
  ∃ printed,
    Forall is_print printed ∧
    @_run example.tools "s01" [] example.events_no_angle example.orientation
      example.world_0
    = (Ok (), {| files := ∅; log := printed |}).
Proof.
  split; [vm_compute; reflexivity|].
  destruct (@run_empty_selection example.tools "s01" []
              example.events_no_angle example.orientation []
              (target_circAngle <$> example.events_no_angle) example.world_0
              eq_refl eq_refl) as (printed & Hprint & Hrun & _).
  exists printed. split; assumption.
Defined.

Lemma single_trial_error_formula_witness :
  cell (single_trial_error example.orientation [[1; 7]]%float [0%float]) 0 1
  = Some (PrimFloat.abs (np.pi - np.remainder (7 - 0) (2 * np.pi)))%float.
Proof.
  apply (@single_trial_error_formula example.tools example.orientation
           [[1; 7]]%float [0%float] 0 1 [1; 7]%float 7%float 0%float
           eq_refl eq_refl eq_refl).
Defined.

Lemma subregress_length_mismatch_witness :
  @_subregress example.tools (Arr1 [0; 1]%float) example.events_3
    example.presence "contrast" true
  = Raise ValueError.
Proof.
  refine (proj2 (@subregress_length_mismatch example.tools (Arr1 [0; 1]%float)
                   example.events_3 example.presence "contrast" true
                   ((λ t, np.of_bool (target_present t)) <$> example.events_3)
                   eq_refl _)
                "target_contrast" [0.5; 0.75; 1]%float eq_refl).
  vm_compute. lia.
Defined.

Lemma absent_trials_do_not_matter_witness :
  @_subregress example.tools example.y_pred_3 example.events_3
    example.presence "visibility" false
  = @_subregress example.tools example.y_pred_3' example.events_3'
      example.presence "visibility" false ∧
  @_correlate_subject example.tools example.gat_3 [0; 1; 2] example.events_3
  = @_correlate_subject example.tools example.gat_3' [0; 1; 2] example.events_3'.
Proof.
  assert (∀ A (xs xs' : list A),
            length xs = 3 → length xs' = 3 →
            xs !! 0 = xs' !! 0 → xs !! 2 = xs' !! 2 →
            same_at_present example.events_3 xs xs') as Hsame.
  { intros A xs xs' Hl Hl' H0 H2. split; [congruence|].
    intros [|[|[|i]]] Hi; try assumption; discriminate Hi. }
  apply (@absent_trials_do_not_matter example.tools
           example.y_pred_3 example.y_pred_3' example.events_3 example.events_3'
           example.presence "visibility" false example.gat_3 example.gat_3'
           [[[[0.5]; [7]; [1.5]]]]%float [[[[0.5]; [(-2)]; [1.5]]]]%float
           [0; 1; 2]).
  - split; [reflexivity|]. apply Hsame; reflexivity.
  - apply Hsame; reflexivity.
  - reflexivity.
  - reflexivity.
  - intros ev [= <-]. repeat constructor. apply Hsame; reflexivity.
Defined.

(* ================================================================== *)
(** * Further properties of [run_decoding.py] *)

Lemma comprehension_filter {A : Type} (p : A → result bool) (b : A → bool)
    (l : list A) :
  (∀ x, x ∈ l → p x = Ok (b x)) →
  comprehension p l = Ok (filter (λ x, b x = true) l).
Proof.
  induction l as [|x l IH]; intros Hp; simpl; [done|].
  rewrite Hp by apply list_elem_of_here. simpl.
  rewrite IH by (intros y Hy; apply Hp; by apply list_elem_of_further).
  simpl. rewrite filter_cons. by destruct (b x).
Qed.

Lemma comprehension_raise {A : Type} (p : A → result bool) (e : exn)
    (l : list A) :
  (∀ x, p x = Raise e) →
  comprehension p l = match l with [] => Ok [] | _ => Raise e end.
Proof. intros Hp. destruct l as [|x l]; simpl; [done|]. by rewrite Hp. Qed.

Lemma column_length (events : DataFrame) (nm : string) (col : list float) :
  column events nm = Ok col → length col = length events.
Proof.
  unfold column.
  repeat (destruct (String.eqb nm _);
          [intros [= <-]; by rewrite length_fmap|]).
  done.
Qed.

Lemma column_raise (events : DataFrame) (nm : string) (e : exn) :
  column events nm = Raise e → e = KeyError.
Proof.
  unfold column. repeat (destruct (String.eqb nm _); [done|]). congruence.
Qed.

Lemma take_lookups {A : Type} (sel : list nat) (xs r : list A) :
  np.take sel xs = Ok r ↔ Forall2 (λ i x, xs !! i = Some x) sel r.
Proof.
  revert r. induction sel as [|i sel IH]; intros r; simpl.
  - split; [intros [= <-]; constructor|by intros ->%Forall2_nil_inv_l].
  - destruct (xs !! i) as [x|] eqn:Hx.
    + rewrite bind_Ok. split.
      * intros (r' & Hr' & [= <-]). constructor; [done|by apply IH].
      * intros (y & r' & Hy & Hr' & ->)%Forall2_cons_inv_l.
        exists r'. split; [by apply IH|congruence].
    + split; [done|].
      intros (y & r' & Hy & _ & _)%Forall2_cons_inv_l. congruence.
Qed.

Lemma take_Ok_in_range {A : Type} (sel : list nat) (xs : list A) :
  (∃ r, np.take sel xs = Ok r) ↔ Forall (λ i, i < length xs) sel.
Proof.
  split; [|apply take_in_range].
  intros [r Hr%take_lookups]. induction Hr as [|i x sel r Hi _ IH]; constructor;
    [by eapply lookup_lt_Some|done].
Qed.

Lemma take_raise {A : Type} (sel : list nat) (xs : list A) (e : exn) :
  np.take sel xs = Raise e → e = IndexError ∧ ∃ i, i ∈ sel ∧ length xs ≤ i.
Proof.
  induction sel as [|i sel IH]; simpl; [done|].
  destruct (xs !! i) as [x|] eqn:Hx.
  - destruct (np.take sel xs) as [r|e']; simpl; [done|].
    intros [= ->]. destruct IH as (-> & j & Hj & Hlen); [done|].
    split; [done|]. exists j. split; [by apply list_elem_of_further|done].
  - intros [= <-]. split; [done|]. exists i.
    split; [apply list_elem_of_here|by apply lookup_ge_None].
Qed.

(** [s[ii]] on the selected entries of a column is the entry [ii] of the
    column. *)
Lemma loc_take (sel : list nat) (col sub : list float) (ii : nat) :
  np.take sel col = Ok sub → ii ∈ sel →
  ∃ v, col !! ii = Some v ∧ loc sel sub ii = Ok v.
Proof.
  intros Hsub%take_lookups. induction Hsub as [|i v sel sub Hi _ IH]; intros Hin.
  - by apply elem_of_nil in Hin.
  - simpl. destruct (decide (i = ii)) as [->|Hne]; [by exists v|].
    apply IH. apply elem_of_cons in Hin as [->|Hin]; done.
Qed.

Lemma where_fmap_filter {A : Type} (q : A → bool) (l : list A) :
  np.where_ (q <$> l)
  = filter (λ i, q <$> l !! i = Some true) (seq 0 (length l)).
Proof.
  unfold np.where_. rewrite length_fmap. apply list_filter_iff.
  intros i. by rewrite list_lookup_fmap.
Qed.

Lemma where_lt (mask : list bool) (i : nat) :
  i ∈ np.where_ mask → i < length mask.
Proof. intros Hi%elem_of_where. by eapply lookup_lt_Some. Qed.

Lemma where_sorted (mask : list bool) :
  StronglySorted lt (np.where_ mask) ∧ NoDup (np.where_ mask).
Proof.
  split.
  - apply StronglySorted_filter, StronglySorted_lt_seq.
  - apply NoDup_filter, NoDup_seq.
Qed.

Lemma filter_ext_in {A : Type} (P Q : A → Prop) `{∀ x, Decision (P x)}
    `{∀ x, Decision (Q x)} (l : list A) :
  (∀ x, x ∈ l → P x ↔ Q x) → filter P l = filter Q l.
Proof.
  induction l as [|x l IH]; intros Hext; [done|].
  rewrite !filter_cons.
  rewrite IH by (intros y Hy; apply Hext; by apply list_elem_of_further).
  pose proof (Hext x (list_elem_of_here _ _)).
  destruct (decide (P x)), (decide (Q x)); tauto.
Qed.

(** The trials that [_run] keeps are the rows that pass the query and
    whose label is a number, in the order of the table. *)
Lemma trial_selection_eligible (events : DataFrame) (analysis : Analysis)
    (col : list float) :
  column events (condition analysis) = Ok col →
  trial_selection events analysis
  = Ok (filter (λ i, eligible analysis events col i = true)
               (seq 0 (length events))).
Proof.
  intros Hcol. pose proof (column_length _ _ _ Hcol) as Hlen.
  unfold trial_selection. rewrite Hcol. simpl.
  set (sel := match query analysis with
              | Some q => np.where_ (q <$> events)
              | None => seq 0 (length events)
              end).
  assert (Forall (λ i, i < length col) sel) as Hrange.
  { apply Forall_forall. intros i Hi. rewrite Hlen. unfold sel in Hi.
    destruct (query analysis) as [q|].
    - apply where_lt in Hi. by rewrite length_fmap in Hi.
    - apply elem_of_seq in Hi. lia. }
  destruct (take_in_range sel col Hrange) as [sub Hsub]. rewrite Hsub. simpl.
  rewrite (comprehension_filter _
             (λ ii, negb (np.isnan (default PrimFloat.nan (col !! ii))))).
  2:{ intros ii Hii. destruct (loc_take sel col sub ii Hsub Hii) as (v & Hv & ->).
      simpl. by rewrite Hv. }
  f_equal.
  assert (∀ i, i ∈ seq 0 (length events) →
               ∃ t v, events !! i = Some t ∧ col !! i = Some v) as Hrows.
  { intros i Hi%elem_of_seq.
    destruct (lookup_lt_is_Some_2 events i) as [t Ht]; [lia|].
    destruct (lookup_lt_is_Some_2 col i) as [v Hv]; [lia|]. eauto. }
  unfold sel. destruct (query analysis) as [q|] eqn:Hq.
  - rewrite where_fmap_filter, list_filter_filter. apply filter_ext_in.
    intros i (t & v & Ht & Hv)%Hrows. unfold eligible. rewrite Hq, Ht, Hv. simpl.
    destruct (q t), (np.isnan v); simpl; intuition congruence.
  - apply filter_ext_in.
    intros i (t & v & Ht & Hv)%Hrows. unfold eligible. rewrite Hq, Ht, Hv. simpl.
    by destruct (np.isnan v).
Qed.

Lemma eligible_spec (analysis : Analysis) (events : DataFrame)
    (col : list float) (i : nat) :
  eligible analysis events col i = true ↔
  ∃ t v, events !! i = Some t ∧ col !! i = Some v ∧
         (∀ q, query analysis = Some q → q t = true) ∧ np.isnan v = false.
Proof.
  unfold eligible. split.
  - destruct (events !! i) as [t|], (col !! i) as [v|]; try done.
    intros [Hq Hv%negb_true_iff]%andb_true_iff. exists t, v.
    split_and!; [done..| |done]. intros q Hquery. by rewrite Hquery in Hq.
  - intros (t & v & -> & -> & Hq & Hv). rewrite Hv.
    destruct (query analysis) as [q|]; [|done]. by rewrite (Hq q eq_refl).
Qed.

(** X1.  The trial selection of [_run], when the condition is a column
    of the metadata, does not raise and returns, in increasing order and
    without repetition, exactly the rows that pass the query of the
    analysis (all rows when there is none) and whose label is not NaN. *)
Theorem trial_selection_spec (events : DataFrame) (analysis : Analysis)
    (col : list float) :
  column events (condition analysis) = Ok col →
  ∃ sel, trial_selection events analysis = Ok sel ∧
         StronglySorted lt sel ∧
         ∀ i, i ∈ sel ↔
              ∃ t v, events !! i = Some t ∧ col !! i = Some v ∧
                     (∀ q, query analysis = Some q → q t = true) ∧
                     np.isnan v = false.
Proof.
  intros Hcol. eexists. split; [by apply trial_selection_eligible|]. split.
  - apply StronglySorted_filter, StronglySorted_lt_seq.
  - intros i. rewrite list_elem_of_filter, eligible_spec, elem_of_seq. split.
    + tauto.
    + intros (t & v & Ht & Hrest). split; [by eauto|].
      apply lookup_lt_Some in Ht. lia.
Qed.

Lemma trial_selection_raise (events : DataFrame) (analysis : Analysis) (e : exn) :
  column events (condition analysis) = Raise e →
  trial_selection events analysis = Ok [] ∨
  trial_selection events analysis = Raise KeyError.
Proof.
  intros Hcol. pose proof (column_raise _ _ _ Hcol) as ->.
  unfold trial_selection. rewrite comprehension_raise with (e := KeyError).
  - destruct (match query analysis with Some _ => _ | None => _ end); auto.
  - intros ii. by rewrite Hcol.
Qed.

(** X2.  When the condition of the analysis is no column of the
    metadata, [_run] raises [KeyError], whatever the query selects (also
    when it selects nothing): nothing is fitted and the files are as
    before. *)
Theorem run_missing_condition `{Extern} (subject : string) (epochs : Epochs)
    (events : DataFrame) (analysis : Analysis) (e : exn) (w : world) :
  column events (condition analysis) = Raise e →
  ∃ printed,
    Forall is_print printed ∧
    _run subject epochs events analysis w
    = (Raise KeyError, {| files := files w; log := log w ++ printed |}).
Proof.
  intros Hcol. exists [Printed [subject; name analysis]].
  split; [by repeat constructor|].
  unfold _run, mbind, io_bind, emit, lift. simpl.
  destruct (trial_selection_raise events analysis e Hcol) as [-> | ->]; [|done].
  by rewrite Hcol, (column_raise _ _ _ Hcol).
Qed.

Lemma trial_selection_in_range (events : DataFrame) (analysis : Analysis)
    (sel : list nat) :
  trial_selection events analysis = Ok sel →
  Forall (λ i, i < length events) sel.
Proof.
  intros Hsel.
  destruct (column events (condition analysis)) as [col|e] eqn:Hcol.
  - rewrite (trial_selection_eligible _ _ _ Hcol) in Hsel. injection Hsel as <-.
    apply Forall_forall. intros i [_ Hi%elem_of_seq]%list_elem_of_filter. lia.
  - destruct (trial_selection_raise _ _ _ Hcol) as [Hnil|Hraise];
      rewrite Hsel in *; [|done]. injection Hnil as ->. constructor.
Qed.

Lemma length_zero_nil {A : Type} (l : list A) :
  l ≠ [] → (length l =? 0)%nat = false.
Proof. destruct l; [done|]. intros _. reflexivity. Qed.

(** X3.  When the estimator fails, in [fit] or in [score], [_run] hands
    the exception on: no file is written for the analysis, and the loop
    over the analyses of the subject stops there, without running the
    analyses that follow. *)
Theorem run_estimator_failure `{Extern} (subject : string) (epochs : Epochs)
    (events : DataFrame) (analysis : Analysis) (rest : list Analysis)
    (col labels : list float) (sel : list nat) (e : exn) (w : world) :
  trial_selection events analysis = Ok sel →
  sel ≠ [] →
  column events (condition analysis) = Ok col →
  np.take sel (np.float32 <$> col) = Ok labels →
  (gat_fit analysis (epochs_getitem epochs sel) labels = Raise e ∨
   ∃ gat, gat_fit analysis (epochs_getitem epochs sel) labels = Ok gat ∧
          gat_score gat (epochs_getitem epochs sel) labels = Raise e) →
  ∃ w', _run subject epochs events analysis w = (Raise e, w') ∧
        files w' = files w ∧
        run_analyses subject epochs events (analysis :: rest) w = (Raise e, w').
Proof.
  intros Hsel Hne Hcol Hlabels Hfail.
  assert (∃ w', _run subject epochs events analysis w = (Raise e, w') ∧
                files w' = files w) as (w' & Hrun & Hfiles).
  { unfold _run, mbind, io_bind, emit, lift, mret, io_ret. simpl.
    rewrite Hsel, Hcol. simpl. rewrite Hlabels, (length_zero_nil sel Hne).
    destruct Hfail as [Hfit|(gat & Hfit & Hscore)]; rewrite Hfit; simpl.
    - by eexists.
    - rewrite Hscore. by eexists. }
  exists w'. split_and!; [done..|].
  simpl. unfold mbind at 1, io_bind. by rewrite Hrun.
Qed.

(** X4.  A run that selects trials and whose estimator succeeds returns
    after writing two files, the ['decod'] and the ['score'] file of the
    subject and the analysis, and no other.  The ['decod'] file carries
    the selection and the whole metadata; its estimators are kept for
    ['probe_phase'] and ['target_circAngle'] only, its single-trial
    predictions for ['target_present'], ['target_circAngle'] and
    ['probe_circAngle'] only. *)
Theorem run_saves `{Extern} (subject : string) (epochs : Epochs)
    (events : DataFrame) (analysis : Analysis)
    (col labels : list float) (sel : list nat)
    (gat gat' : GAT Estimators) (score : matrix) (w : world) :
  trial_selection events analysis = Ok sel →
  sel ≠ [] →
  column events (condition analysis) = Ok col →
  np.take sel (np.float32 <$> col) = Ok labels →
  gat_fit analysis (epochs_getitem epochs sel) labels = Ok gat →
  gat_score gat (epochs_getitem epochs sel) labels = Ok (gat', score) →
  ∃ saved w',
    _run subject epochs events analysis w = (Ok (), w') ∧
    files w' !! ("decod"%string, subject, name analysis)
    = Some (Decod saved analysis sel events) ∧
    files w' !! ("score"%string, subject, name analysis)
    = Some (Score score (epochs_times epochs)) ∧
    (∀ key, key ≠ ("decod"%string, subject, name analysis) →
            key ≠ ("score"%string, subject, name analysis) →
            files w' !! key = files w !! key) ∧
    estimators_ saved
    = (if bool_decide (name analysis ∈ ["probe_phase"; "target_circAngle"]%string)
       then estimators_ gat' else None) ∧
    y_pred_ saved
    = (if bool_decide (name analysis ∈ ["target_present"; "target_circAngle";
                                        "probe_circAngle"]%string)
       then y_pred_ gat' else None) ∧
    score_mode saved = score_mode gat' ∧
    train_times_ saved = train_times_ gat'.
Proof.
  intros Hsel Hne Hcol Hlabels Hfit Hscore.
  unfold _run, mbind, io_bind, emit, lift, mret, io_ret, save. simpl.
  rewrite Hsel, Hcol. simpl. rewrite Hlabels, (length_zero_nil sel Hne), Hfit.
  simpl. rewrite Hscore. simpl.
  eexists _, _. split; [reflexivity|]. simpl. split_and!.
  - rewrite lookup_insert_ne by done. by rewrite lookup_insert_eq.
  - by rewrite lookup_insert_eq.
  - intros key Hdecod Hscore'. by rewrite !lookup_insert_ne.
  - by repeat case_bool_decide.
  - by repeat case_bool_decide.
  - by repeat case_bool_decide.
  - by repeat case_bool_decide.
Qed.

Lemma take_fmap {A B : Type} (f : A → B) (sel : list nat) (xs r : list A) :
  np.take sel xs = Ok r → np.take sel (f <$> xs) = Ok (f <$> r).
Proof.
  rewrite !take_lookups. intros Hr. apply Forall2_fmap_r.
  eapply Forall2_impl; [exact Hr|]. simpl. intros i x Hx.
  by rewrite list_lookup_fmap, Hx.
Qed.

Lemma column_fmap (events : DataFrame) (nm : string) (col : list float) :
  column events nm = Ok col →
  ∃ f : trial → float, col = f <$> events ∧ ∀ ev, column ev nm = Ok (f <$> ev).
Proof.
  unfold column.
  repeat (destruct (String.eqb nm _); [intros [= <-]; by eexists|]).
  done.
Qed.

(** X5.  The selection that [_run] saves fits the metadata it is saved
    with: [events.iloc[events_sel]], as every later script starts with,
    does not raise, has one row per selected trial, every row passes the
    query of the analysis, and the label column of the selected table
    has no NaN. *)
Theorem selected_table (events : DataFrame) (analysis : Analysis)
    (col : list float) (sel : list nat) :
  column events (condition analysis) = Ok col →
  trial_selection events analysis = Ok sel →
  ∃ ev labels,
    iloc events sel = Ok ev ∧
    column ev (condition analysis) = Ok labels ∧
    length ev = length sel ∧
    Forall (λ v, np.isnan v = false) labels ∧
    ∀ q, query analysis = Some q → Forall (λ t, q t = true) ev.
Proof.
  intros Hcol Hsel.
  rewrite (trial_selection_eligible _ _ _ Hcol) in Hsel. injection Hsel as <-.
  set (sel := filter _ _).
  assert (∀ i, i ∈ sel → eligible analysis events col i = true) as Helig.
  { by intros i [? _]%list_elem_of_filter. }
  destruct (take_in_range sel events) as [ev Hev].
  { apply Forall_forall. intros i [_ Hi%elem_of_seq]%list_elem_of_filter. lia. }
  destruct (column_fmap _ _ _ Hcol) as (f & -> & Hf).
  exists ev, (f <$> ev). unfold iloc. split_and!; [done|apply Hf| | |].
  - by eapply take_Ok_length.
  - apply take_lookups in Hev. apply Forall_fmap, Forall_forall.
    intros t (k & Ht)%list_elem_of_lookup.
    destruct (Forall2_lookup_r _ _ _ _ _ Hev Ht) as (i & Hi & Hit).
    apply list_elem_of_lookup_2, Helig, eligible_spec in Hi
      as (t' & v & Ht' & Hv & _ & Hnan).
    rewrite list_lookup_fmap, Ht' in Hv. simpl in Hv.
    assert (t' = t) as -> by congruence. simpl. congruence.
  - intros q Hq. apply take_lookups in Hev. apply Forall_forall.
    intros t (k & Ht)%list_elem_of_lookup.
    destruct (Forall2_lookup_r _ _ _ _ _ Hev Ht) as (i & Hi & Hit).
    apply list_elem_of_lookup_2, Helig, eligible_spec in Hi
      as (t' & v & Ht' & _ & Hquery & _).
    assert (t' = t) as -> by congruence. by apply Hquery.
Qed.

(* ================================================================== *)
(** * Further properties of [_subscore] *)

Lemma factors_key (events : DataFrame) (factor key : string) (values : list float) :
  factors factor = Ok (key, values) →
  ∃ keycol, column events key = Ok keycol ∧ length keycol = length events ∧
            (length values = 4 ∨ length values = 3).
Proof.
  unfold factors.
  destruct (String.eqb factor "visibility"); [|destruct (String.eqb factor "contrast")];
    intros [= <- <-]; (eexists; split; [reflexivity|]);
    rewrite length_fmap; auto.
Qed.

Lemma as_2d_length (y_pred : ndarray) : length (as_2d y_pred).2 = len y_pred.
Proof. destruct y_pred; simpl; [by rewrite length_fmap|done]. Qed.

Lemma absent_trials_lt (events : DataFrame) (i : nat) :
  i ∈ absent_trials events → i < length events.
Proof. intros Hi%where_lt. by rewrite length_fmap in Hi. Qed.

Lemma subscore_sel_lt (analysis : Analysis) (events : DataFrame)
    (keycol : list float) (value : float) (i : nat) :
  length keycol = length events →
  i ∈ _subscore_sel analysis events keycol value → i < length events.
Proof.
  intros Hlen. unfold _subscore_sel, np.r_.
  assert (i ∈ np.where_ ((λ x, PrimFloat.eqb x value) <$> keycol) →
          i < length events) as Hlevel.
  { intros Hi%where_lt. by rewrite length_fmap, Hlen in Hi. }
  destruct (String.eqb _ _); [|done].
  intros [?|?%absent_trials_lt]%elem_of_app; auto.
Qed.

Lemma take_out_of_range {A : Type} (sel : list nat) (xs : list A) (i : nat) :
  i ∈ sel → length xs ≤ i → np.take sel xs = Raise IndexError.
Proof.
  intros Hi Hlen. destruct (np.take sel xs) as [r|e] eqn:Htake.
  - assert (Forall (λ i, i < length xs) sel) as Hrange
      by (apply take_Ok_in_range; eauto).
    eapply Forall_forall in Hrange; [|done]. lia.
  - by apply take_raise in Htake as [-> _].
Qed.

(** X6.  An array that [_subscore] returns has one row per time point
    and one column per level of the factor: four for the visibility,
    three for the contrast. *)
Theorem subscore_shape (y_pred : ndarray) (events : DataFrame)
    (analysis : Analysis) (factor : string) (scores : matrix) :
  _subscore y_pred events analysis factor = Ok scores →
  ∃ key values,
    factors factor = Ok (key, values) ∧
    (length values = 4 ∨ length values = 3) ∧
    length scores = (as_2d y_pred).1 ∧
    Forall (λ row, length row = length values) scores.
Proof.
  intros Hrun.
  destruct (factors factor) as [[key values]|] eqn:Hf;
    [|by unfold _subscore in Hrun; rewrite Hf in Hrun].
  destruct (column events (name analysis)) as [y_true|] eqn:Hy;
    [|by unfold _subscore in Hrun; rewrite Hf in Hrun; simpl in Hrun;
         rewrite Hy in Hrun].
  destruct (factors_key events _ _ _ Hf) as (keycol & Hkey & _ & Hvalues).
  rewrite (subscore_unfold _ _ _ _ _ _ _ Hf Hy) in Hrun.
  apply (subscore_loop_shape _ _ _ _ keycol _ Hkey (length values)) in Hrun
    as [Hlen Hrows].
  exists key, values. split_and!; [done..| |].
  - by rewrite Hlen, length_replicate.
  - apply Hrows, Forall_replicate. by rewrite length_replicate.
Qed.

Lemma subscore_level_more_rows (analysis : Analysis) (events : DataFrame)
    (key : string) (y_true : list float) (rows extra : matrix)
    (iv : nat * float) (acc : matrix) :
  length events ≤ length rows →
  _subscore_level analysis events key y_true (rows ++ extra) iv acc
  = _subscore_level analysis events key y_true rows iv acc.
Proof.
  intros Hlen. destruct iv as [ii value]. unfold _subscore_level.
  destruct (column events key) as [keycol|] eqn:Hkey; simpl; [|done].
  pose proof (column_length _ _ _ Hkey) as Hkeylen.
  set (sel := _subscore_sel analysis events keycol value).
  destruct (_ <? 5)%nat; [done|].
  destruct (np.take sel y_true) as [labels|]; simpl; [|done].
  destruct (_ <? 2)%nat; [done|].
  replace (np.take sel (rows ++ extra)) with (np.take sel rows); [done|].
  apply take_ext. intros i Hi%subscore_sel_lt; [|done].
  rewrite lookup_app_l; [done|lia].
Qed.

(** X7.  [_subscore] does not compare the number of predictions with the
    number of trials: predictions beyond the last trial of the metadata
    are not read, and the result is the same without them. *)
Theorem subscore_ignores_extra_predictions (events : DataFrame)
    (analysis : Analysis) (factor : string) (n_times : nat)
    (rows extra : matrix) (v extra1 : list float) :
  (length events ≤ length rows →
   _subscore (Arr2 n_times (rows ++ extra)) events analysis factor
   = _subscore (Arr2 n_times rows) events analysis factor) ∧
  (length events ≤ length v →
   _subscore (Arr1 (v ++ extra1)) events analysis factor
   = _subscore (Arr1 v) events analysis factor).
Proof.
  split; intros Hlen; unfold _subscore;
    (destruct (factors factor) as [[key values]|]; simpl; [|done]);
    (destruct (column events (name analysis)) as [y_true|]; simpl; [|done]);
    apply for_loop_ext; intros iv acc _.
  - by apply subscore_level_more_rows.
  - rewrite fmap_app. apply subscore_level_more_rows. by rewrite length_fmap.
Qed.

(** X8.  With fewer predictions than trials, [_subscore] fails as soon as
    a level that passes the minimum count holds a trial without
    prediction: the iteration of that level raises [IndexError], and the
    call returns no array. *)
Theorem subscore_short_predictions (y_pred : ndarray) (events : DataFrame)
    (analysis : Analysis) (factor key : string)
    (values y_true keycol labels : list float) (ii i : nat) (value : float) :
  factors factor = Ok (key, values) →
  column events (name analysis) = Ok y_true →
  column events key = Ok keycol →
  values !! ii = Some value →
  let sel := _subscore_sel analysis events keycol value in
  5 ≤ length sel →
  np.take sel y_true = Ok labels →
  2 ≤ length (np.unique labels) →
  i ∈ sel → len y_pred ≤ i →
  (∀ acc, _subscore_level analysis events key y_true (as_2d y_pred).2
            (ii, value) acc = Raise IndexError) ∧
  ∃ e, _subscore y_pred events analysis factor = Raise e.
Proof.
  intros Hf Hy Hkey Hii sel Hlen Hlabels Huniq Hi Hshort.
  assert (∀ acc, _subscore_level analysis events key y_true (as_2d y_pred).2
                   (ii, value) acc = Raise IndexError) as Hstep.
  { intros acc. unfold _subscore_level. rewrite Hkey. simpl. fold sel.
    apply Nat.ltb_ge in Hlen. rewrite Hlen, Hlabels. simpl.
    apply Nat.ltb_ge in Huniq. rewrite Huniq. simpl.
    rewrite (take_out_of_range sel _ i Hi); [done|].
    by rewrite as_2d_length. }
  split; [done|].
  rewrite (subscore_unfold _ _ _ _ _ _ _ Hf Hy).
  destruct (enumerate_split values ii value Hii) as (l1 & l2 & -> & _ & _).
  rewrite for_loop_app.
  destruct (for_loop _ l1 _) as [acc1|e]; [|by eexists].
  cbn -[_subscore_level]. rewrite Hstep. by eexists.
Qed.

Lemma for_loop_total {A S : Type} (body : A → S → result S) (l : list A) (s : S) :
  (∀ x s, x ∈ l → ∃ s', body x s = Ok s') → ∃ s', for_loop body l s = Ok s'.
Proof.
  revert s. induction l as [|x l IH]; intros s Hbody; simpl; [by eexists|].
  destruct (Hbody x s) as [s' ->]; [apply list_elem_of_here|]. simpl.
  apply IH. intros y s'' Hy. apply Hbody. by apply list_elem_of_further.
Qed.

(** X9.  With a prediction for every trial of the metadata, a factor of
    the dictionary, an analysis whose name is a column, and a scorer that
    returns one number and does not raise, [_subscore] returns an array:
    neither the selections nor the assignments can fail. *)
Theorem subscore_returns (y_pred : ndarray) (events : DataFrame)
    (analysis : Analysis) (factor key : string) (values y_true : list float) :
  factors factor = Ok (key, values) →
  column events (name analysis) = Ok y_true →
  length events ≤ len y_pred →
  (∀ labels preds, ∃ x, scorer analysis labels preds = Ok [x]) →
  ∃ scores, _subscore y_pred events analysis factor = Ok scores.
Proof.
  intros Hf Hy Hlen Hscorer.
  destruct (factors_key events _ _ _ Hf) as (keycol & Hkey & Hkeylen & _).
  pose proof (column_length _ _ _ Hy) as Hylen.
  rewrite (subscore_unfold _ _ _ _ _ _ _ Hf Hy).
  apply for_loop_total. intros [ii value] acc _.
  unfold _subscore_level. rewrite Hkey. simpl.
  set (sel := _subscore_sel analysis events keycol value).
  assert (Forall (λ i, i < length events) sel) as Hrange.
  { apply Forall_forall. intros i. by apply subscore_sel_lt. }
  destruct (_ <? 5)%nat; [by eexists|].
  destruct (take_in_range sel y_true) as [labels ->]; [by rewrite Hylen|]. simpl.
  destruct (_ <? 2)%nat; [by eexists|].
  destruct (take_in_range sel (as_2d y_pred).2) as [preds ->].
  { rewrite as_2d_length. eapply Forall_impl; [done|]. simpl. lia. }
  simpl. destruct (Hscorer labels preds) as [x ->]. simpl.
  unfold assign_column. destruct (decide _); by eexists.
Qed.

(* ================================================================== *)
(** * Further properties of [_subregress] *)

Lemma is_nan_eq (x : float) : PrimFloat.is_nan x = true → x = PrimFloat.nan.
Proof.
  intros Hx. rewrite <- (SF2Prim_Prim2SF x). unfold Prim2SF. by rewrite Hx.
Qed.

Lemma sub_nan_r (x : float) : PrimFloat.sub x PrimFloat.nan = PrimFloat.nan.
Proof.
  rewrite <- (SF2Prim_Prim2SF (PrimFloat.sub x PrimFloat.nan)), sub_spec.
  change (Prim2SF PrimFloat.nan) with S754_nan.
  unfold SF64sub, SFsub. by destruct (Prim2SF x).
Qed.

Lemma sub_nan_l (x : float) : PrimFloat.sub PrimFloat.nan x = PrimFloat.nan.
Proof.
  rewrite <- (SF2Prim_Prim2SF (PrimFloat.sub PrimFloat.nan x)), sub_spec.
  reflexivity.
Qed.



(** X12.  A trial whose true value or whose prediction is NaN has a NaN
    error at that time point, in the circular and in the plain analysis:
    the trials without a target, whose angle is NaN, carry no error. *)
Theorem single_trial_error_nan (analysis : Analysis) (rows : matrix)
    (y_true : list float) (i t : nat) (row : list float) (p y : float) :
  rows !! i = Some row → row !! t = Some p → y_true !! i = Some y →
  np.isnan y = true ∨ np.isnan p = true →
  cell (single_trial_error analysis rows y_true) i t = Some np.nan.
Proof.
  intros Hrow Hp Hy Hnan.
  assert ((p - y)%float = PrimFloat.nan) as Hsub.
  { destruct Hnan as [->%is_nan_eq| ->%is_nan_eq];
      [apply sub_nan_r|apply sub_nan_l]. }
  unfold cell, single_trial_error. destruct (contains _ _).
  - rewrite list_lookup_fmap, lookup_zip_with, Hrow, Hy. simpl.
    by rewrite !list_lookup_fmap, Hp; simpl; rewrite Hsub.
  - rewrite lookup_zip_with, Hrow, Hy. simpl.
    by rewrite list_lookup_fmap, Hp; simpl; rewrite Hsub.
Qed.




Lemma intersect1d_length (a b : list nat) :
  length (np.intersect1d a b) ≤ length b.
Proof.
  apply submseteq_length, NoDup_submseteq; [apply intersect1d_sorted|].
  by intros i [_ Hi]%elem_of_intersect1d.
Qed.

Lemma nanmean_all_nan (k : nat) : np.nanmean (replicate k np.nan) = np.nan.
Proof.
  unfold np.nanmean. rewrite fmap_replicate.
  change (if PrimFloat.is_nan np.nan then 0%float else np.nan) with 0%float.
  assert (filter (λ x, PrimFloat.is_nan x = false) (replicate k np.nan) = [])
    as -> by (induction k; [done|by rewrite replicate_S, filter_cons]).
  assert (∀ m, foldl PrimFloat.add 0%float (replicate m 0%float) = 0%float)
    as Hsum by (induction m; [done|by simpl]).
  destruct k as [|k]; simpl; [reflexivity|]. by rewrite Hsum.
Qed.

Lemma column_of_replicate {A : Type} (k n t : nat) (x : A) :
  t < n →
  omap (λ row : list A, row !! t) (replicate k (replicate n x)) = replicate k x.
Proof.
  intros Ht. induction k as [|k IH]; [done|].
  simpl. rewrite lookup_replicate_2 by done. simpl. by f_equal.
Qed.

Lemma nanmean_axis0_all_nan (k n : nat) :
  np.nanmean_axis0 n (replicate k (replicate n np.nan)) = replicate n np.nan.
Proof.
  unfold np.nanmean_axis0.
  transitivity ((λ _ : nat, np.nan) <$> seq 0 n); [|apply fmap_const_seq].
  apply list_fmap_ext. intros i t [-> Ht]%lookup_seq. simpl.
  by rewrite column_of_replicate, nanmean_all_nan.
Qed.

Lemma cov_factor_column (events : DataFrame) (factor : string) :
  ∃ covcol,
    column events (if String.eqb factor "visibility"
                   then "target_contrast"%string else "detect_button"%string)
    = Ok covcol.
Proof. destruct (String.eqb factor "visibility"); by eexists. Qed.

(** X11.  In the independent mode, when at most 5 trials have a target
    and a factor of at least the first level, no level of the loop
    reaches 6 trials: nothing is correlated, nothing is raised, and the
    result is NaN at every time point. *)
Theorem subregress_independent_few_trials `{Extern} (y_pred : ndarray)
    (events : DataFrame) (analysis : Analysis) (factor key : string)
    (values y_true keycol : list float) (v0 : float) :
  factors factor = Ok (key, values) →
  column events (name analysis) = Ok y_true →
  len y_pred = length y_true →
  column events key = Ok keycol →
  values !! 0 = Some v0 →
  length (_subregress_sel events keycol v0) ≤ 5 →
  _subregress y_pred events analysis factor true
  = Ok (replicate (as_2d y_pred).1 np.nan).
Proof.
  intros Hf Hy Hlen Hkey Hv0 Hfew.
  unfold _subregress. rewrite Hf. simpl. rewrite Hy. simpl.
  destruct (decide (len y_pred ≠ length y_true)); [done|].
  destruct (as_2d y_pred) as [n_times rows]. simpl.
  rewrite Hkey. simpl. rewrite Hv0. simpl.
  rewrite for_loop_fixed.
  - simpl. f_equal. apply nanmean_axis0_all_nan.
  - intros [ii cov_value] _. unfold _subregress_level.
    destruct (cov_factor_column events factor) as [covcol ->]. simpl.
    pose proof (intersect1d_length
                  (np.where_ ((λ x, PrimFloat.eqb x cov_value) <$> covcol))
                  (_subregress_sel events keycol v0)) as Hle.
    destruct (_ <=? 5)%nat eqn:Hlevel; [done|].
    apply Nat.leb_gt in Hlevel. lia.
Qed.


(* ================================================================== *)
(** * Further properties of [_correlate] and [_subscore_pipeline] *)

Lemma mapM_Ok {A B : Type} (f : A → result B) (l : list A) (k : list B) :
  mapM f l = Ok k ↔ Forall2 (λ x y, f x = Ok y) l k.
Proof.
  revert k. induction l as [|x l IH]; intros k; simpl.
  - split; [intros [= <-]; constructor|by intros ->%Forall2_nil_inv_l].
  - split.
    + intros (y & Hy & (k' & Hk' & [= <-])%bind_Ok)%bind_Ok.
      constructor; [done|by apply IH].
    + intros (y & k' & Hy & Hk' & ->)%Forall2_cons_inv_l.
      rewrite Hy. simpl. apply IH in Hk'. by rewrite Hk'.
Qed.

Lemma concat_lookup_uniform {A : Type} (m : nat) (ls : list (list A))
    (i j : nat) (l : list A) :
  Forall (λ l, length l = m) ls →
  ls !! i = Some l → j < m →
  List.concat ls !! (i * m + j) = l !! j.
Proof.
  intros Hls. revert i. induction Hls as [|l0 ls Hl0 _ IH]; intros i Hi Hj.
  - done.
  - simpl. destruct i as [|i]; simpl in *.
    + injection Hi as ->. rewrite lookup_app_l; [done|lia].
    + rewrite lookup_app_r by lia.
      replace (m + i * m + j - length l0) with (i * m + j) by lia. by apply IH.
Qed.

Lemma concat_length_uniform {A : Type} (m : nat) (ls : list (list A)) :
  Forall (λ l, length l = m) ls → length (List.concat ls) = length ls * m.
Proof.
  induction 1 as [|l ls Hl _ IH]; [done|].
  simpl. rewrite length_app, IH. lia.
Qed.

Lemma chunks_length {A : Type} (n m : nat) (xs : list A) :
  length (chunks n m xs) = n.
Proof. revert xs. induction n as [|n IH]; intros xs; simpl; [done|]. by rewrite IH. Qed.

Lemma chunks_lookup {A : Type} (n m : nat) (xs : list A) (i j : nat) :
  i < n → j < m →
  chunks n m xs !! i ≫= (.!! j) = xs !! (i * m + j).
Proof.
  revert xs i. induction n as [|n IH]; intros xs i Hi Hj; [lia|].
  simpl. destruct i as [|i]; simpl.
  - by rewrite lookup_take_lt.
  - rewrite IH by lia. rewrite lookup_drop. f_equal. lia.
Qed.

Lemma chunks_rows {A : Type} (n m : nat) (xs : list A) :
  length xs = n * m → Forall (λ row, length row = m) (chunks n m xs).
Proof.
  revert xs. induction n as [|n IH]; intros xs Hlen; simpl; constructor.
  - rewrite length_take. lia.
  - apply IH. rewrite length_drop. lia.
Qed.

Lemma where_present_lt (ev : DataFrame) (i : nat) :
  i ∈ np.where_ (target_present <$> ev) → i < length ev.
Proof. intros Hi%where_lt. by rewrite length_fmap in Hi. Qed.

(** What [_correlate] has done when its body returns. *)
Lemma correlate_subject_Ok `{Extern} (gat : GAT Estimators)
    (events_sel : list nat) (events : DataFrame) (R : matrix) :
  _correlate_subject gat events_sel events = Ok R →
  ∃ ev y y' y_vis X r,
    iloc events events_sel = Ok ev ∧
    y_pred_ gat = Some y ∧
    np.take (np.where_ (target_present <$> ev)) (detect_button <$> ev) = Ok y_vis ∧
    mapM (mapM (np.take (np.where_ (target_present <$> ev)))) y = Ok y' ∧
    trial_rows (length (np.where_ (target_present <$> ev))) y' = Ok X ∧
    repeated_spearman X y_vis = Ok r ∧
    reshape2 (shape2 y').1 (shape2 y').2 r = Ok R.
Proof.
  unfold _correlate_subject.
  intros (ev & Hev & (y_vis & Hvis & (y & Hy & (y' & Hy' & (X & HX & (r & Hr
            & HR)%bind_Ok)%bind_Ok)%bind_Ok)%bind_Ok)%bind_Ok)%bind_Ok.
  exists ev, y, y', y_vis, X, r. split_and!; try done.
  destruct (y_pred_ gat) as [y0|]; simpl in Hy; congruence.
Qed.

Lemma selected_tensor_shape (sel : list nat) (y y' : tensor) :
  mapM (mapM (np.take sel)) y = Ok y' →
  shape2 y' = shape2 y ∧
  Forall2 (Forall2 (λ trials trials', np.take sel trials = Ok trials')) y y'.
Proof.
  intros Hy'%mapM_Ok.
  assert (Forall2 (Forall2 (λ trials trials', np.take sel trials = Ok trials'))
                  y y') as Hsel.
  { eapply Forall2_impl; [exact Hy'|]. simpl. by intros train train' ?%mapM_Ok. }
  split; [|done]. unfold shape2.
  rewrite (Forall2_length _ _ _ Hsel). f_equal.
  destruct Hsel as [|train train' ? ? Htrain _]; [done|]. simpl.
  by rewrite (Forall2_length _ _ _ Htrain).
Qed.

(** X14.  The matrix that the body of [_correlate] returns has the shape
    of the stored scores, one row per training time and one column per
    testing time. *)
Theorem correlate_shape `{Extern} (gat : GAT Estimators) (y : tensor)
    (events_sel : list nat) (events : DataFrame) (R : matrix) :
  y_pred_ gat = Some y →
  _correlate_subject gat events_sel events = Ok R →
  length R = (shape2 y).1 ∧
  Forall (λ row, length row = (shape2 y).2) R.
Proof.
  intros Hy (ev & y0 & y' & y_vis & X & r & _ & Hy0 & _ & Hy' & _ & _ & HR)
    %correlate_subject_Ok.
  assert (y0 = y) as -> by congruence.
  apply selected_tensor_shape in Hy' as [<- _].
  unfold reshape2 in HR. destruct (decide _) as [Hlen|]; [|done].
  injection HR as <-. split; [apply chunks_length|by apply chunks_rows].
Qed.

Lemma take_lookup {A : Type} (sel : list nat) (xs r : list A) (k s : nat) :
  np.take sel xs = Ok r → sel !! k = Some s → r !! k = xs !! s.
Proof.
  intros Hr%take_lookups Hk.
  destruct (Forall2_lookup_l _ _ _ _ _ Hr Hk) as (x & -> & Hx). done.
Qed.

(** The rows that [trial_rows] builds: the entry [i * n_test + j] of the
    row of a trial is its prediction for the training time [i] and the
    testing time [j]. *)
Lemma trial_rows_lookup (n n_test : nat) (y' : tensor) (X : matrix)
    (k i j : nat) (train : list (list (list float))) :
  trial_rows n y' = Ok X →
  Forall (λ train, length train = n_test) y' →
  k < n → y' !! i = Some train → j < n_test →
  ∃ row p, X !! k = Some row ∧ row !! (i * n_test + j) = Some p ∧
           tensor_at y' i j k = Some p.
Proof.
  unfold trial_rows. destruct (decide (n = 0)); [done|].
  intros HX%mapM_Ok Hrect Hk Hi Hj.
  destruct (Forall2_lookup_l _ _ _ k k HX) as (row & Hrow & Hcells).
  { apply lookup_seq. split; [done|lia]. }
  apply bind_Ok in Hcells as (cells & Hcells%mapM_Ok & [= <-]).
  destruct (Forall2_lookup_l _ _ _ _ _ Hcells Hi) as (c & Hc & Htrain%mapM_Ok).
  assert (Forall (λ c, length c = n_test) cells) as Huniform.
  { apply Forall_forall. intros c' (i' & Hc')%list_elem_of_lookup.
    destruct (Forall2_lookup_r _ _ _ _ _ Hcells Hc') as (train' & Htr' & Hm%mapM_Ok).
    rewrite <- (Forall2_length _ _ _ Hm).
    eapply Forall_forall in Hrect; [done|]. by eapply list_elem_of_lookup_2. }
  assert (length train = n_test) as Htrainlen.
  { eapply Forall_forall in Hrect; [done|]. by eapply list_elem_of_lookup_2. }
  destruct (lookup_lt_is_Some_2 train j) as [test Htest]; [lia|].
  destruct (Forall2_lookup_l _ _ _ _ _ Htrain Htest) as (p & Hp & Hout).
  apply bind_Ok in Hout as (out & Hout & Hp0).
  exists (List.concat cells), p. split_and!; [done| |].
  - by rewrite (concat_lookup_uniform n_test cells i j c).
  - unfold tensor_at. rewrite Hi. simpl. rewrite Htest. simpl.
    destruct (test !! k) as [out'|]; simpl in *; [|done].
    injection Hout as ->. destruct (out !! 0); simpl in Hp0; congruence.
Qed.

(** X15.  How the body of [_correlate] lays the predictions out.  Each
    trial with a target gives one row to [repeated_spearman] and its
    rating; the entry [i * n_test + j] of the row is the trial's first
    output for the training time [i] and the testing time [j]; and the
    cell [(i, j)] of the result is the entry [i * n_test + j] of the
    coefficients: the cell of the times [i] and [j] is computed from the
    predictions of those times. *)
Theorem correlate_cells `{Extern} (gat : GAT Estimators) (y : tensor)
    (events_sel : list nat) (events : DataFrame) (R : matrix) :
  y_pred_ gat = Some y →
  Forall (λ train, length train = (shape2 y).2) y →
  _correlate_subject gat events_sel events = Ok R →
  ∃ ev X y_vis r,
    iloc events events_sel = Ok ev ∧
    repeated_spearman X y_vis = Ok r ∧
    (∀ k s, np.where_ (target_present <$> ev) !! k = Some s →
       (∃ t, ev !! s = Some t ∧ target_present t = true ∧
             y_vis !! k = Some (detect_button t)) ∧
       ∀ i j, i < (shape2 y).1 → j < (shape2 y).2 →
         ∃ row p, X !! k = Some row ∧
                  row !! (i * (shape2 y).2 + j) = Some p ∧
                  tensor_at y i j s = Some p) ∧
    ∀ i j, i < (shape2 y).1 → j < (shape2 y).2 →
      cell R i j = r !! (i * (shape2 y).2 + j).
Proof.
  intros Hy Hrect
    (ev & y0 & y' & y_vis & X & r & Hev & Hy0 & Hvis & Hy' & HX & Hr & HR)
    %correlate_subject_Ok.
  assert (y0 = y) as -> by congruence.
  set (sel := np.where_ (target_present <$> ev)) in *.
  destruct (selected_tensor_shape sel y y' Hy') as [Hshape Hsel].
  rewrite Hshape in HR.
  exists ev, X, y_vis, r. split_and!; [done..| |].
  - intros k s Hk. split.
    + pose proof (proj1 (elem_of_where _ _) (list_elem_of_lookup_2 _ _ _ Hk)) as Hs.
      rewrite list_lookup_fmap in Hs.
      destruct (ev !! s) as [t|] eqn:Ht; simpl in Hs; [|done].
      exists t. split_and!; [done|congruence|].
      by rewrite (take_lookup _ _ _ _ _ Hvis Hk), list_lookup_fmap, Ht.
    + intros i j Hi Hj.
      destruct (lookup_lt_is_Some_2 y' i) as [train' Htrain'].
      { by rewrite (f_equal fst Hshape : length y' = length y). }
      destruct (trial_rows_lookup (length sel) (shape2 y).2 y' X k i j train'
                  HX) as (row & p & Hrow & Hp & Hat); try done.
      { apply Forall_forall. intros tr' (i' & Htr')%list_elem_of_lookup.
        destruct (Forall2_lookup_r _ _ _ _ _ Hsel Htr') as (tr & Htr & Htake).
        rewrite <- (Forall2_length _ _ _ Htake).
        eapply Forall_forall in Hrect; [done|]. by eapply list_elem_of_lookup_2. }
      { by eapply lookup_lt_Some. }
      exists row, p. split_and!; [done..|].
      unfold tensor_at in *.
      destruct (Forall2_lookup_r _ _ _ _ _ Hsel Htrain') as (train & -> & Htake).
      rewrite Htrain' in Hat. simpl in *.
      destruct (train' !! j) as [test'|] eqn:Htest'; simpl in Hat; [|done].
      destruct (Forall2_lookup_r _ _ _ _ _ Htake Htest') as (test & -> & Htest).
      simpl. by rewrite <- (take_lookup _ _ _ _ _ Htest Hk).
  - intros i j Hi Hj. unfold reshape2 in HR.
    destruct (decide _); [|done]. injection HR as <-.
    unfold cell. by apply chunks_lookup.
Qed.

(** X16.  An artifact without single-trial predictions ([y_pred_] is
    [None], as [_run] leaves it for most analyses) cannot be used
    downstream: the body of [_correlate] raises [TypeError], and
    [_subscore_pipeline] raises [AttributeError] at the first visibility
    level with fewer than 5 trials. *)
Theorem pruned_artifact_errors `{Extern} (analysis : Analysis)
    (gat : GAT Estimators) (events_sel : list nat) (events ev : DataFrame)
    (vis : nat) :
  y_pred_ gat = None →
  iloc events events_sel = Ok ev →
  _correlate_subject gat events_sel events = Raise TypeError ∧
  (length (np.where_ ((λ t, PrimFloat.eqb (detect_button t) (np.of_nat vis))
                        <$> ev)) < 5 →
   _subscore_pipeline_level analysis gat ev vis = Raise AttributeError).
Proof.
  intros Hy Hev. split.
  - unfold _correlate_subject. rewrite Hev. simpl.
    destruct (take_in_range (np.where_ (target_present <$> ev))
                (detect_button <$> ev)) as [y_vis ->].
    { apply Forall_forall. intros i Hi%where_present_lt.
      by rewrite length_fmap. }
    simpl. by rewrite Hy.
  - intros Hlen%Nat.ltb_lt.
    unfold _subscore_pipeline_level, _subscore_pipeline_sel.
    by rewrite Hlen, Hy.
Qed.

Lemma for_loop_append {A B : Type} (f : A → result B) (l : list A) (acc : list B) :
  for_loop (λ x acc, y ← f x; Ok (acc ++ [y])) l acc
  = (ys ← mapM f l; Ok (acc ++ ys)).
Proof.
  revert acc. induction l as [|x l IH]; intros acc; simpl.
  - by rewrite app_nil_r.
  - destruct (f x) as [y|e]; simpl; [|done]. rewrite IH.
    destruct (mapM f l) as [ys|e]; simpl; [|done].
    by rewrite <- app_assoc.
Qed.

(** X17.  For one subject, [_subscore_pipeline] returns four matrices,
    one per visibility rating and in the order of the ratings, each what
    the body of the loop gives for that rating on the selected rows of
    the metadata; the estimator it passes on scores in the mode
    ['mean-sample-wise'], whatever mode was stored.  It returns nothing
    when an index of the stored selection is beyond the metadata. *)
Theorem subscore_pipeline_four_levels `{Extern} (analysis : Analysis)
    (gat : GAT Estimators) (events_sel : list nat) (events : DataFrame) :
  let gat' := {| estimators_ := estimators_ gat; y_pred_ := y_pred_ gat;
                 score_mode := "mean-sample-wise";
                 train_times_ := train_times_ gat |} in
  (∀ scores,
     _subscore_pipeline_subject analysis gat events_sel events = Ok scores →
     ∃ ev, iloc events events_sel = Ok ev ∧
           length scores = 4 ∧
           ∀ vis, vis < 4 →
             ∃ m, scores !! vis = Some m ∧
                  _subscore_pipeline_level analysis gat' ev vis = Ok m) ∧
  (∀ i, i ∈ events_sel → length events ≤ i →
     _subscore_pipeline_subject analysis gat events_sel events
     = Raise IndexError).
Proof.
  intros gat'. split.
  - intros scores. unfold _subscore_pipeline_subject.
    intros (ev & Hev & Hloop)%bind_Ok. fold gat' in Hloop.
    rewrite (for_loop_append (_subscore_pipeline_level analysis gat' ev)) in Hloop.
    apply bind_Ok in Hloop as (ys & Hys%mapM_Ok & [= <-]). simpl.
    exists ev. split_and!; [done| |].
    + by rewrite <- (Forall2_length _ _ _ Hys).
    + intros vis Hvis.
      destruct (Forall2_lookup_l _ _ _ vis vis Hys) as (m & Hm & Hlevel);
        [by apply lookup_seq|].
      by exists m.
  - intros i Hi Hlen. unfold _subscore_pipeline_subject, iloc.
    by rewrite (take_out_of_range events_sel events i Hi Hlen).
Qed.

(* ================================================================== *)
(** * Properties of [_duration_toi] *)

Example roll_ex : np_roll [1; 2; 3; 4; 5] 2 = [4; 5; 1; 2; 3].
Proof. reflexivity. Qed.

Lemma np_roll_length {A : Type} (row : list A) (shift : nat) :
  length (np_roll row shift) = length row.
Proof. apply length_rotate. Qed.

Lemma np_roll_lookup {A : Type} (row : list A) (shift j : nat) :
  j < length row →
  np_roll row shift !! ((j + shift) `mod` length row) = row !! j.
Proof.
  intros Hj. unfold np_roll.
  set (n := length row). set (s := shift `mod` n).
  assert (s < n) as Hs by (apply Nat.mod_upper_bound; lia).
  assert ((j + shift) `mod` n = (j + s) `mod` n) as ->.
  { unfold s. rewrite (Nat.Div0.add_mod j shift n), (Nat.mod_small j n) by done.
    by rewrite Nat.Div0.add_mod_idemp_r. }
  rewrite lookup_rotate_r by (apply Nat.mod_upper_bound; lia).
  f_equal. unfold rotate_nat_add. fold n.
  destruct (decide (j + s < n)) as [Hlt|Hge].
  - rewrite (Nat.mod_small (j + s) n) by done.
    replace (Z.of_nat (n - s) + Z.of_nat (j + s))%Z
      with (Z.of_nat j + 1 * Z.of_nat n)%Z by lia.
    rewrite Z.mod_add by lia. rewrite Z.mod_small by lia. lia.
  - assert ((j + s) `mod` n = j + s - n) as ->.
    { replace (j + s) with (j + s - n + 1 * n) at 1 by lia.
      rewrite Nat.Div0.mod_add. apply Nat.mod_small. lia. }
    replace (Z.of_nat (n - s) + Z.of_nat (j + s - n))%Z with (Z.of_nat j) by lia.
    rewrite Z.mod_small by lia. lia.
Qed.

(** X18.  The centering shift of [_duration_toi] is a circular roll.  In
    each row of each aligned matrix, the entry of the column [j] is found
    after the shift in the column [(j + len(times) // 2) mod n], for a
    row of [n] entries: the entries that pass the last column come back
    at the first, the rows keep their length, nothing is padded and
    nothing is lost. *)
Theorem duration_shift_is_circular (align_on_diag : matrix → matrix)
    (times : list float) (scores : list matrix) (score : matrix)
    (s i j : nat) (row : list float) (x : float) :
  scores !! s = Some score →
  align_on_diag score !! i = Some row →
  row !! j = Some x →
  ∃ shifted rolled,
    _duration_toi_align align_on_diag times scores !! s = Some shifted ∧
    length shifted = length (align_on_diag score) ∧
    shifted !! i = Some rolled ∧
    length rolled = length row ∧
    rolled !! ((j + length times / 2) `mod` length row) = Some x.
Proof.
  intros Hs Hi Hj. unfold _duration_toi_align.
  eexists _, _. split_and!.
  - by rewrite !list_lookup_fmap, Hs.
  - by rewrite length_fmap.
  - by rewrite list_lookup_fmap, Hi.
  - apply np_roll_length.
  - rewrite np_roll_lookup; [done|]. by eapply lookup_lt_Some.
Qed.

Lemma where_none {A : Type} (p : A → bool) (l : list A) :
  Forall (λ x, p x = false) l → np.where_ (p <$> l) = [].
Proof.
  intros Hl. apply elem_of_nil_inv. intros i Hi%elem_of_where.
  rewrite list_lookup_fmap in Hi.
  destruct (l !! i) as [x|] eqn:Hx; simpl in Hi; [|done].
  eapply Forall_forall in Hl; [|by eapply list_elem_of_lookup_2].
  congruence.
Qed.

Lemma mapM_fmap_Ok {A B : Type} (f : A → result B) (g : A → B) (l : list A) :
  (∀ x, x ∈ l → f x = Ok (g x)) → mapM f l = Ok (g <$> l).
Proof.
  induction l as [|x l IH]; intros Hf; simpl; [done|].
  rewrite Hf by apply list_elem_of_here. simpl.
  rewrite IH by (intros y Hy; apply Hf; by apply list_elem_of_further).
  done.
Qed.

Lemma mapM_total {A B : Type} (f : A → result B) (l : list A) :
  (∀ x, x ∈ l → ∃ y, f x = Ok y) → ∃ k, mapM f l = Ok k.
Proof.
  induction l as [|x l IH]; intros Hf; simpl; [by eexists|].
  destruct (Hf x) as [y ->]; [apply list_elem_of_here|]. simpl.
  destruct IH as [k ->]; [|by eexists].
  intros z Hz. apply Hf. by apply list_elem_of_further.
Qed.

Lemma toi_window_spec (times : list float) (toi : float * float) (i : nat) :
  i ∈ toi_window times toi ↔
  ∃ x, times !! i = Some x ∧
       PrimFloat.leb toi.1 x = true ∧ PrimFloat.leb x toi.2 = true.
Proof.
  unfold toi_window. rewrite elem_of_where, list_lookup_fmap.
  destruct (times !! i) as [x|]; simpl.
  - split.
    + intros [= [? ?]%andb_true_iff]. by exists x.
    + intros (? & [= <-] & -> & ->). done.
  - split; [done|by intros (? & ? & _)].
Qed.

(** X19.  The means over a window of training times in [_duration_toi].
    With a row for every time point in each aligned matrix, the means
    are computed for every subject, one vector per subject, without
    error.  With a window that holds no time point (its bounds are
    crossed, or no time falls between them) nothing is raised either:
    every mean is 0/0, and each subject gets a vector of NaN as long as
    the rows of its matrix. *)
Theorem duration_window_means (align_on_diag : matrix → matrix)
    (times : list float) (scores : list matrix) (toi : float * float) :
  (Forall (λ score, length times ≤ length (align_on_diag score)) scores →
   ∃ means, _duration_toi_scores align_on_diag times scores toi = Ok means ∧
            length means = length scores) ∧
  (Forall (λ x, PrimFloat.leb toi.1 x && PrimFloat.leb x toi.2 = false) times →
   _duration_toi_scores align_on_diag times scores toi
   = Ok ((λ score,
            replicate (length (default [] (head (align_on_diag score)))) np.nan)
           <$> scores)).
Proof.
  split.
  - intros Hrows.
    destruct (mapM_total
                (λ score : matrix,
                   rows ← np.take (toi_window times toi) score;
                   Ok (np_mean_axis0 (length (default [] (head score))) rows))
                (_duration_toi_align align_on_diag times scores)) as [means Hmeans].
    + intros shifted Hshifted. unfold _duration_toi_align in Hshifted.
      rewrite <- list_fmap_compose in Hshifted.
      apply list_elem_of_fmap in Hshifted as (score & -> & Hscore).
      eapply Forall_forall in Hrows; [|done]. unfold compose.
      destruct (take_in_range (toi_window times toi)
                  ((λ row : list float, np_roll row (length times / 2))
                     <$> align_on_diag score)) as [rows ->]; [|by eexists].
      apply Forall_forall. intros i (x & Hx%lookup_lt_Some & _)%toi_window_spec.
      rewrite length_fmap. lia.
    + exists means. split; [done|]. apply mapM_Ok, Forall2_length in Hmeans.
      unfold _duration_toi_align in Hmeans. by rewrite !length_fmap in Hmeans.
  - intros Hnone. unfold _duration_toi_scores, toi_window.
    rewrite (where_none _ times Hnone). simpl.
    unfold _duration_toi_align. rewrite <- list_fmap_compose.
    rewrite (mapM_fmap_Ok _
               (λ shifted : matrix,
                  replicate (length (default [] (head shifted))) np.nan)).
    2:{ intros shifted _. f_equal. unfold np_mean_axis0. simpl.
        apply fmap_const_seq. }
    f_equal. rewrite <- list_fmap_compose. apply list_fmap_ext.
    intros _ score _. simpl. f_equal.
    destruct (align_on_diag score) as [|row rest]; simpl; [done|].
    apply np_roll_length.
Qed.

(* ================================================================== *)
(** * The further properties at concrete inputs *)

Lemma trial_selection_spec_witness :
  ∃ sel, trial_selection example.events_3 example.orientation = Ok sel ∧
         StronglySorted lt sel ∧
         ∀ i, i ∈ sel ↔
              ∃ t v, example.events_3 !! i = Some t ∧
                     (target_circAngle <$> example.events_3) !! i = Some v ∧
                     (∀ q, query example.orientation = Some q → q t = true) ∧
                     np.isnan v = false.
Proof.
  exact (trial_selection_spec example.events_3 example.orientation
           (target_circAngle <$> example.events_3) eq_refl).
Defined.

Lemma run_missing_condition_witness :
  ∃ printed,
    Forall is_print printed ∧
    @_run example.tools "s01" [] example.events_3 sample.probe example.world_0
    = (Raise KeyError, {| files := ∅; log := [] ++ printed |}).
Proof.
  exact (@run_missing_condition example.tools "s01" [] example.events_3
           sample.probe KeyError example.world_0 eq_refl).
Defined.

Lemma run_estimator_failure_witness :
  ∃ w', @_run sample.failing_tools "s01" [] example.events_3 example.presence
          {| files := ∅; log := [] |} = (Raise ValueError, w') ∧
        files w' = ∅ ∧
        @run_analyses sample.failing_tools "s01" [] example.events_3
          [example.presence; example.orientation] {| files := ∅; log := [] |}
        = (Raise ValueError, w').
Proof.
  refine (@run_estimator_failure sample.failing_tools "s01" []
            example.events_3 example.presence [example.orientation]
            [1; 0; 1]%float [1; 0; 1]%float [0; 1; 2] ValueError
            {| files := ∅; log := [] |} _ _ _ _ _).
  - vm_compute. reflexivity.
  - discriminate.
  - vm_compute. reflexivity.
  - vm_compute. reflexivity.
  - left. reflexivity.
Defined.

Lemma run_saves_witness :
  ∃ saved w',
    @_run example.tools "s01" [] example.events_3 example.presence
      example.world_0 = (Ok (), w') ∧
    files w' !! ("decod"%string, "s01"%string, "target_present"%string)
    = Some (Decod saved example.presence [0; 1; 2] example.events_3) ∧
    estimators_ saved = None ∧ y_pred_ saved = Some [].
Proof.
  destruct (@run_saves example.tools "s01" [] example.events_3
              example.presence [1; 0; 1]%float [1; 0; 1]%float [0; 1; 2]
              {| estimators_ := Some (); y_pred_ := Some [];
                 score_mode := "mean-fold-wise"; train_times_ := [] |}
              {| estimators_ := Some (); y_pred_ := Some [];
                 score_mode := "mean-fold-wise"; train_times_ := [] |}
              [] example.world_0)
    as (saved & w' & Hrun & Hdecod & _ & _ & Hest & Hpred & _).
  - vm_compute. reflexivity.
  - discriminate.
  - vm_compute. reflexivity.
  - vm_compute. reflexivity.
  - reflexivity.
  - reflexivity.
  - exists saved, w'. split_and!; assumption.
Defined.

Lemma selected_table_witness :
  ∃ ev labels,
    iloc example.events_3 [0; 2] = Ok ev ∧
    column ev "target_circAngle" = Ok labels ∧
    length ev = 2 ∧
    Forall (λ v, np.isnan v = false) labels ∧
    ∀ q, query example.orientation = Some q → Forall (λ t, q t = true) ev.
Proof.
  refine (selected_table example.events_3 example.orientation
            (target_circAngle <$> example.events_3) [0; 2] eq_refl _).
  vm_compute. reflexivity.
Defined.

Lemma subscore_shape_witness :
  ∃ key values,
    factors "visibility" = Ok (key, values) ∧
    (length values = 4 ∨ length values = 3) ∧
    length [[np.nan; 0.25; np.nan; np.nan]%float] = (as_2d example.y_pred_9).1 ∧
    Forall (λ row, length row = length values)
           [[np.nan; 0.25; np.nan; np.nan]%float].
Proof.
  refine (subscore_shape example.y_pred_9 example.events_4_5
            example.orientation "visibility"
            [[np.nan; 0.25; np.nan; np.nan]%float] _).
  vm_compute. reflexivity.
Defined.

Lemma subscore_ignores_extra_predictions_witness :
  _subscore (Arr1 ([0; 1; 2; 3; 0; 1; 2; 3; 0] ++ [5; 6])%float)
    example.events_4_5 example.orientation "visibility"
  = _subscore (Arr1 [0; 1; 2; 3; 0; 1; 2; 3; 0]%float)
      example.events_4_5 example.orientation "visibility".
Proof.
  refine (proj2 (subscore_ignores_extra_predictions example.events_4_5
                   example.orientation "visibility" 1 [] []
                   [0; 1; 2; 3; 0; 1; 2; 3; 0]%float [5; 6]%float) _).
  vm_compute. lia.
Defined.

Lemma subscore_short_predictions_witness :
  ∃ e, _subscore sample.y_pred_5 example.events_4_5 example.orientation
         "visibility" = Raise e.
Proof.
  refine (proj2 (subscore_short_predictions sample.y_pred_5
                   example.events_4_5 example.orientation "visibility"
                   "detect_button" [0; 1; 2; 3]%float
                   (target_circAngle <$> example.events_4_5)
                   (detect_button <$> example.events_4_5)
                   [0; 1; 2; 3; 0]%float 1 8 1%float
                   eq_refl eq_refl eq_refl eq_refl _ _ _ _ _)).
  - vm_compute. lia.
  - vm_compute. reflexivity.
  - vm_compute. lia.
  - apply (list_elem_of_lookup_2 _ 4). reflexivity.
  - vm_compute. lia.
Defined.

Lemma subscore_returns_witness :
  ∃ scores, _subscore example.y_pred_9 example.events_4_5 example.orientation
              "visibility" = Ok scores.
Proof.
  refine (subscore_returns example.y_pred_9 example.events_4_5
            example.orientation "visibility" "detect_button"
            [0; 1; 2; 3]%float (target_circAngle <$> example.events_4_5)
            eq_refl eq_refl _ _).
  - vm_compute. lia.
  - intros labels preds. exists 0.25%float. reflexivity.
Defined.

Lemma single_trial_error_nan_witness :
  cell (single_trial_error example.orientation [[1; 2]]%float [PrimFloat.nan])
       0 1
  = Some np.nan.
Proof.
  refine (single_trial_error_nan example.orientation [[1; 2]]%float
            [PrimFloat.nan] 0 1 [1; 2]%float 2%float PrimFloat.nan
            eq_refl eq_refl eq_refl _).
  left. reflexivity.
Defined.


Lemma subregress_independent_few_trials_witness :
  @_subregress example.tools example.y_pred_3 example.events_3
    example.presence "visibility" true
  = Ok [np.nan].
Proof.
  refine (@subregress_independent_few_trials example.tools example.y_pred_3
            example.events_3 example.presence "visibility" "detect_button"
            [0; 1; 2; 3]%float [1; 0; 1]%float [3; 1; 2]%float 0%float
            eq_refl eq_refl eq_refl eq_refl eq_refl _).
  vm_compute. lia.
Defined.


Lemma correlate_shape_witness :
  length [[7%float]] = 1 ∧ Forall (λ row : list float, length row = 1) [[7%float]].
Proof.
  refine (@correlate_shape example.tools example.gat_3
            [[[[0.5]; [7]; [1.5]]]]%float [0; 1; 2] example.events_3
            [[7%float]] eq_refl _).
  vm_compute. reflexivity.
Defined.

Lemma correlate_cells_witness :
  ∃ ev X y_vis r,
    iloc example.events_3 [0; 1; 2] = Ok ev ∧
    @repeated_spearman example.tools X y_vis = Ok r ∧
    (∀ k s, np.where_ (target_present <$> ev) !! k = Some s →
       (∃ t, ev !! s = Some t ∧ target_present t = true ∧
             y_vis !! k = Some (detect_button t)) ∧
       ∀ i j, i < 1 → j < 1 →
         ∃ row p, X !! k = Some row ∧ row !! (i * 1 + j) = Some p ∧
                  tensor_at [[[[0.5]; [7]; [1.5]]]]%float i j s = Some p) ∧
    ∀ i j, i < 1 → j < 1 → cell [[7%float]] i j = r !! (i * 1 + j).
Proof.
  refine (@correlate_cells example.tools example.gat_3
            [[[[0.5]; [7]; [1.5]]]]%float [0; 1; 2] example.events_3
            [[7%float]] eq_refl _ _).
  - repeat constructor.
  - vm_compute. reflexivity.
Defined.

Lemma pruned_artifact_errors_witness :
  @_correlate_subject example.tools sample.gat_pruned [0; 1; 2] example.events_3
  = Raise TypeError ∧
  @_subscore_pipeline_level example.tools example.presence sample.gat_pruned
    example.events_3 0
  = Raise AttributeError.
Proof.
  destruct (@pruned_artifact_errors example.tools example.presence
              sample.gat_pruned [0; 1; 2] example.events_3 example.events_3 0
              eq_refl eq_refl) as [Hcorr Hsub].
  split; [exact Hcorr|]. apply Hsub. vm_compute. lia.
Defined.

Lemma subscore_pipeline_four_levels_witness :
  ∃ scores,
    @_subscore_pipeline_subject example.tools example.presence example.gat_2x3
      [0; 1; 2; 3; 4; 5; 6] example.events_5_absent_2 = Ok scores ∧
    length scores = 4.
Proof.
  eexists. split; [vm_compute; reflexivity|].
  destruct (proj1 (@subscore_pipeline_four_levels example.tools
                     example.presence example.gat_2x3 [0; 1; 2; 3; 4; 5; 6]
                     example.events_5_absent_2) _ eq_refl)
    as (ev & _ & Hlen & _).
  exact Hlen.
Defined.

Lemma duration_shift_is_circular_witness :
  ∃ shifted rolled,
    _duration_toi_align id sample.times_5 sample.scores_5 !! 0 = Some shifted ∧
    length shifted = 5 ∧
    shifted !! 1 = Some rolled ∧
    length rolled = 5 ∧
    rolled !! ((4 + 5 / 2) `mod` 5) = Some 10%float.
Proof.
  exact (duration_shift_is_circular id sample.times_5 sample.scores_5
           _ 0 1 4 [6; 7; 8; 9; 10]%float 10%float eq_refl eq_refl eq_refl).
Defined.

Lemma duration_window_means_witness :
  (∃ means, _duration_toi_scores id sample.times_5 sample.scores_5
              (0.25, 0.5)%float = Ok means ∧ length means = 1) ∧
  _duration_toi_scores id sample.times_5 sample.scores_5 (2, 3)%float
  = Ok [replicate 5 np.nan].
Proof.
  split.
  - refine (proj1 (duration_window_means id sample.times_5 sample.scores_5
                     (0.25, 0.5)%float) _).
    repeat constructor.
  - refine (proj2 (duration_window_means id sample.times_5 sample.scores_5
                     (2, 3)%float) _).
    repeat constructor.
Defined.
